(** * A shallow embedding of dm-foto-checker (check_orders.py, downloader.py)

    Strings are byte strings ([String.string]); the status glyphs are the
    exact byte sequences of the source literals.  Python's [str.upper],
    [str.lower] and [str.strip] are modelled on the ASCII range: bytes
    outside it are left unchanged. *)

From Stdlib Require Import String Ascii List Bool Arith Lia ZArith NArith Sorting.Sorted.
Import ListNotations.
Open Scope string_scope.

(** ** Python string primitives (ASCII range) *)

Definition ascii_upper (c : ascii) : ascii :=
  let n := nat_of_ascii c in
  if ((97 <=? n) && (n <=? 122))%nat then ascii_of_nat (n - 32) else c.

Definition ascii_lower (c : ascii) : ascii :=
  let n := nat_of_ascii c in
  if ((65 <=? n) && (n <=? 90))%nat then ascii_of_nat (n + 32) else c.

(** [s.upper()] *)
Fixpoint str_upper (s : string) : string :=
  match s with
  | EmptyString => EmptyString
  | String c s' => String (ascii_upper c) (str_upper s')
  end.

(** [s.lower()] *)
Fixpoint str_lower (s : string) : string :=
  match s with
  | EmptyString => EmptyString
  | String c s' => String (ascii_lower c) (str_lower s')
  end.

(** [c.isspace()] for an ASCII character: \t \n \v \f \r, \x1c-\x1f and space. *)
Definition is_space (c : ascii) : bool :=
  let n := nat_of_ascii c in
  (((9 <=? n) && (n <=? 13)) || ((28 <=? n) && (n <=? 31)) || (n =? 32))%nat.

Fixpoint drop_spaces (l : list ascii) : list ascii :=
  match l with
  | [] => []
  | c :: l' => if is_space c then drop_spaces l' else l
  end.

(** [s.strip()] *)
Definition str_strip (s : string) : string :=
  string_of_list_ascii
    (rev (drop_spaces (rev (drop_spaces (list_ascii_of_string s))))).

(** [needle in hay] *)
Fixpoint str_contains (needle hay : string) : bool :=
  prefix needle hay ||
  match hay with
  | EmptyString => false
  | String _ hay' => str_contains needle hay'
  end.

(** [s.replace(c, "")] for a one-character pattern *)
Fixpoint str_remove_char (c : ascii) (s : string) : string :=
  match s with
  | EmptyString => EmptyString
  | String d s' =>
      if Ascii.eqb c d then str_remove_char c s' else String d (str_remove_char c s')
  end.

(** Python truthiness of a string: non-empty. *)
Definition str_truthy (s : string) : bool :=
  negb (String.eqb s "").

(** ** Status classification (check_orders.py) *)

(** [STATUS_EMOJIS]: a dict literal, iterated in insertion order. *)
Definition STATUS_EMOJIS : list (string * string) :=
  [ ("PROCESSING", "üè≠");
    ("SHIPPED", "üì¶");
    ("DELIVERED", "‚úÖ");
    ("CANCELLED", "‚ùå");
    ("ERROR", "‚ö†Ô∏è");
    ("Unknown", "‚ùì") ].

(** The glyph of the fallback return of [add_status_emoji]. *)
Definition UNKNOWN_GLYPH : string := "‚ùì".

(** The glyph of the error label of [fetch_order_status]. *)
Definition WARNING_GLYPH : string := "‚ö†Ô∏è".

(** The text printed for an unmapped status code. *)
Definition unmapped_msg (status_code : string) : string :=
  "‚ö†Ô∏è  Unmapped status_code: '" ++ status_code ++ "'".

(** [add_status_emoji(status_code, status_text)]: the [for] loop over the
    dict items with its early [return]; the fallback prints a diagnostic.
    The result is the returned label and the printed lines. *)
Fixpoint add_status_emoji_loop (items : list (string * string))
    (status_code status_text : string) : string * list string :=
  match items with
  | [] => (UNKNOWN_GLYPH ++ " " ++ status_text, [unmapped_msg status_code])
  | (key, emoji) :: rest =>
      if str_contains (str_lower key) (str_lower status_code)
      then (emoji ++ " " ++ status_text, [])
      else add_status_emoji_loop rest status_code status_text
  end.

Definition add_status_emoji (status_code status_text : string) : string * list string :=
  add_status_emoji_loop STATUS_EMOJIS status_code status_text.

(** [is_ready_for_pickup(status_code)] *)
Definition is_ready_for_pickup (status_code : string) : bool :=
  String.eqb (str_upper status_code) "DELIVERED".

(** The full order id computed at the head of [fetch_order_status]. *)
Definition build_full_order_id (order_number shop_number : string) : string :=
  if str_contains "-" order_number
     && (String.length (str_remove_char "-" order_number) =? 12)%nat
  then order_number
  else shop_number ++ "-" ++ order_number.

(** ** Effects: exceptions, a filesystem and an event trace *)

(** Python exceptions the code raises or catches.  [RequestException]
    covers [requests.exceptions.*], a subclass of [IOError]; [OSError]
    carries the concrete subclass name ([NotADirectoryError], ...). *)
Inductive exn :=
| RequestException (msg : string)
| OSError (cls msg : string)
| ValueError (msg : string)
| AttributeError (msg : string)
| KeyError (msg : string)
| BadZipFile (msg : string).

(** [str(e)] *)
Definition exn_str (e : exn) : string :=
  match e with
  | RequestException m | OSError _ m | ValueError m | AttributeError m
  | KeyError m | BadZipFile m => m
  end.

Definition is_request_exception (e : exn) : bool :=
  match e with RequestException _ => true | _ => false end.

(** [except IOError]: [OSError] and its subclasses, [requests]' exceptions included. *)
Definition is_ioerror (e : exn) : bool :=
  match e with RequestException _ | OSError _ _ => true | _ => false end.

(** Observable actions, in program order. *)
Inductive event :=
| EvStatusGet (full_order_id : string)
| EvDownloadGet (url : string)
| EvMkdir (path : string)
| EvOpenWrite (path : string)
| EvExtract (path : string)
| EvUnlink (path : string)
| EvSleep (ms : nat)
| EvPrint (line : string).

(** A path on disk: absent, a regular file, or a directory with its entries. *)
Inductive fs_entry :=
| Missing
| RegularFile
| Directory (names : list string).

Record world := mkWorld {
  w_fs : string -> fs_entry;
  w_trace : list event
}.

Inductive outcome (A : Type) :=
| Ok (a : A) (w : world)
| Raised (e : exn) (w : world).
Arguments Ok {A}.
Arguments Raised {A}.

Definition M (A : Type) : Type := world -> outcome A.

Definition ret {A} (a : A) : M A := fun w => Ok a w.

Definition bind {A B} (m : M A) (k : A -> M B) : M B :=
  fun w => match m w with
           | Ok a w' => k a w'
           | Raised e w' => Raised e w'
           end.

Definition raise {A} (e : exn) : M A := fun w => Raised e w.

(** [try: m except ...]: the handler returns [None] for an exception it
    does not catch, which then propagates. *)
Definition try_catch {A} (m : M A) (h : exn -> option (M A)) : M A :=
  fun w => match m w with
           | Ok a w' => Ok a w'
           | Raised e w' => match h e with
                            | Some k => k w'
                            | None => Raised e w'
                            end
           end.

Notation "x <- m ;; k" := (bind m (fun x => k))
  (at level 61, m at next level, right associativity).
Notation "m ;;; k" := (bind m (fun _ => k))
  (at level 61, right associativity).

Definition emit (ev : event) : M unit :=
  fun w => Ok tt (mkWorld (w_fs w) (w_trace w ++ [ev])).

Definition emit_prints (lines : list string) : M unit :=
  fun w => Ok tt (mkWorld (w_fs w) (w_trace w ++ map EvPrint lines)).

Definition get_entry (p : string) : M fs_entry :=
  fun w => Ok (w_fs w p) w.

Definition set_entry (p : string) (x : fs_entry) : M unit :=
  fun w => Ok tt (mkWorld (fun q => if String.eqb q p then x else w_fs w q) (w_trace w)).

(** ** The outside world the program talks to *)

(** A JSON value read from the status body: a string, or any other JSON
    value with its Python type name, [str()] and truthiness. *)
Inductive jval :=
| JStr (s : string)
| JOther (tyname repr : string) (truthy : bool).

Definition jtruthy (v : jval) : bool :=
  match v with JStr s => str_truthy s | JOther _ _ t => t end.

Definition py_str (v : jval) : string :=
  match v with JStr s => s | JOther _ r _ => r end.

(** What [requests.get(...)], [raise_for_status()] and [resp.json()] give
    for one status query. *)
Inductive status_response :=
| StatusRaises (e : exn)
| StatusNonObject (tyname : string)
| StatusObject (fields : list (string * jval)).

(** The payload of a completed download. *)
Inductive archive :=
| ValidZip (members : list string)
| NotAZip
| ZipFails (extracted : list string) (e : exn).

(** The body stream of a download response. *)
Inductive stream_body :=
| StreamComplete (payload : archive)
| StreamBroken (e : exn).

(** What [requests.get(url, stream=True)] and [raise_for_status()] give. *)
Inductive download_response :=
| DownloadRaises (e : exn)
| DownloadStream (content_length : option string) (body : stream_body).

Record env := mkEnv {
  status_api : string -> status_response;      (* keyed by fullOrderId *)
  download_api : string -> download_response;  (* keyed by prepared URL *)
  resolve : string -> string;                  (* Path(p).resolve() *)
  mkdir_error : string -> option exn;          (* refusal to create a missing directory *)
  open_error : string -> option exn            (* refusal of open(path, 'wb') *)
}.

(** [dict.get(key, default)] on a decoded JSON object (the last duplicate wins). *)
Definition dict_get (fields : list (string * jval)) (key : string) (default : jval) : jval :=
  match find (fun kv => String.eqb (fst kv) key) (rev fields) with
  | Some (_, v) => v
  | None => default
  end.

Definition BASE_URL : string := "https://spot.photoprintit.com/spotapi/orderInfo/order".
Definition CONFIG_ID : string := "1320".
Definition REQUEST_DELAY_ms : nat := 600.  (* REQUEST_DELAY = 0.6 seconds *)
Definition DOWNLOADS_DIR : string := "downloads".

Section Program.

Variable E : env.

(** [fetch_order_status(order_number, shop_number)]: returns
    [(status_code, formatted_status)]; every exception is caught. *)
Definition fetch_order_status (order_number shop_number : string) : M (string * string) :=
  let full_order_id := build_full_order_id order_number shop_number in
  try_catch
    (emit (EvStatusGet full_order_id) ;;;
     match status_api E full_order_id with
     | StatusRaises e => raise e
     | StatusNonObject ty =>
         raise (AttributeError ("'" ++ ty ++ "' object has no attribute 'get'"))
     | StatusObject data =>
         let status_text := dict_get data "summaryStateText" (JStr "") in
         let status_code := dict_get data "summaryStateCode" (JStr "") in
         let status_text :=
           if jtruthy status_text then status_text
           else if jtruthy status_code then status_code else JStr "Unknown" in
         match status_code with
         | JOther ty _ _ =>
             raise (AttributeError ("'" ++ ty ++ "' object has no attribute 'lower'"))
         | JStr code =>
             let '(formatted_status, printed) := add_status_emoji code (py_str status_text) in
             emit_prints printed ;;;
             ret (code, formatted_status)
         end
     end)
    (fun e => Some (ret ("", WARNING_GLYPH ++ " Error: " ++ exn_str e))).

(** ** Download (downloader.py) *)

Definition is_digit (c : ascii) : bool :=
  ((48 <=? nat_of_ascii c) && (nat_of_ascii c <=? 57))%nat.

Fixpoint parse_digits (l : list ascii) (acc : Z) (after_underscore : bool) : option Z :=
  match l with
  | [] => if after_underscore then None else Some acc
  | c :: l' =>
      if is_digit c then
        parse_digits l' (acc * 10 + Z.of_nat (nat_of_ascii c - 48))%Z false
      else if Ascii.eqb c "_" && negb after_underscore then parse_digits l' acc true
      else None
  end.

Definition parse_unsigned (l : list ascii) : option Z :=
  match l with
  | c :: _ => if is_digit c then parse_digits l 0%Z false else None
  | [] => None
  end.

(** [int(s)] for a string: surrounding whitespace, an optional sign, then
    decimal digits with single underscores between them; [None] is the
    [ValueError]. *)
Definition parse_py_int (s : string) : option Z :=
  match list_ascii_of_string (str_strip s) with
  | c :: l' =>
      if Ascii.eqb c "-" then option_map Z.opp (parse_unsigned l')
      else if Ascii.eqb c "+" then parse_unsigned l'
      else parse_unsigned (c :: l')
  | [] => None
  end.

(** A newline, as printed by ["\n..."] in the source. *)
Definition NL : string := String "010"%char EmptyString.

(** [Path(a) / b] (a [b] starting with "/" replaces [a]). *)
Definition path_join (a b : string) : string :=
  if prefix "/" b then b else a ++ "/" ++ b.

(** The name [n] appears in directory [dir] (a write into it). *)
Definition add_names (dir : string) (ns : list string) : M unit :=
  x <- get_entry dir ;;
  match x with
  | Directory names =>
      set_entry dir (Directory (names ++ filter (fun n => negb (existsb (String.eqb n) names)) ns))
  | _ => ret tt
  end.

Definition remove_name (dir n : string) : M unit :=
  x <- get_entry dir ;;
  match x with
  | Directory names => set_entry dir (Directory (filter (fun m => negb (String.eqb m n)) names))
  | _ => ret tt
  end.

Definition CEWE_aak : string := "8ccc7bec8f9899140873db6b01254f35cc3a04ed".
Definition CEWE_clientVersion : string := "2.116.1-20251022-gd981d25".
Definition DOWNLOAD_BASE_API_URL : string := "https://api.cewe-myphotos.com/api/imageCD".

(** [requests.Request('GET', url, params=query_params).prepare().url]; the
    percent-encoding of the path is the identity on the characters the
    order and secure ids use and is not modelled. *)
Definition prepare_url (url : string) (params : list (string * string)) : string :=
  url ++ "?" ++
  String.concat "&" (map (fun kv => fst kv ++ "=" ++ snd kv) params).

(** The part of [download_file] after the response headers are in: the
    [try: ... except IOError] block (open, stream, extract). *)
Definition write_and_extract (output_path full_path filename : string)
    (body : stream_body) : M bool :=
  try_catch
    (match open_error E full_path with
     | Some e => raise e
     | None =>
         x <- get_entry output_path ;;
         match x with
         | Directory _ =>
             emit (EvOpenWrite full_path) ;;; add_names output_path [filename]
         | _ => raise (OSError "FileNotFoundError"
                         ("[Errno 2] No such file or directory: '" ++ full_path ++ "'"))
         end
     end ;;;
     match body with
     | StreamBroken e => raise e
     | StreamComplete payload =>
         emit (EvPrint (NL ++ "  [SUCCESS] Download complete! File saved to: " ++ full_path)) ;;;
         try_catch
           (emit (EvExtract full_path) ;;;
            match payload with
            | ValidZip members =>
                add_names output_path members ;;;
                emit (EvPrint ("  [SUCCESS] Extracted to: " ++ output_path)) ;;;
                emit (EvUnlink full_path) ;;;
                remove_name output_path filename ;;;
                emit (EvPrint "  -> Removed ZIP file")
            | NotAZip => raise (BadZipFile "File is not a zip file")
            | ZipFails extracted e => add_names output_path extracted ;;; raise e
            end)
           (fun e => match e with
                     | BadZipFile _ =>
                         Some (emit (EvPrint "  [WARNING] File is not a valid ZIP archive, keeping as-is"))
                     | _ =>
                         Some (emit (EvPrint ("  [WARNING] Could not extract ZIP file: " ++ exn_str e)))
                     end) ;;;
         ret true
     end)
    (fun e => if is_ioerror e then
                Some (emit (EvPrint (NL ++ "  [ERROR] Could not write to output directory: " ++ output_path)) ;;;
                      emit (EvPrint ("  Details: " ++ exn_str e)) ;;;
                      ret false)
              else None).

(** [download_file(url, output_path, filename)] *)
Definition download_file (url output_path filename : string) : M bool :=
  let full_path := path_join output_path filename in
  resp <- try_catch
            (emit (EvDownloadGet url) ;;;
             match download_api E url with
             | DownloadRaises e => raise e
             | DownloadStream cl body => ret (Some (cl, body))
             end)
            (fun e => if is_request_exception e then
                        Some (emit (EvPrint ("  [ERROR] Could not download file. Details: " ++ exn_str e)) ;;;
                              ret None)
                      else None) ;;
  match resp with
  | None => ret false
  | Some (cl, body) =>
      (* total_size = int(response.headers.get('content-length', 0)) *)
      _ <- match cl with
           | None => ret 0%Z
           | Some s => match parse_py_int s with
                       | Some z => ret z
                       | None => raise (ValueError ("invalid literal for int() with base 10: '" ++ s ++ "'"))
                       end
           end ;;
      write_and_extract output_path full_path filename body
  end.

(** [download_photos(order_id, secure_id, output_folder)] *)
Definition download_url (order_id secure_id : string) : string :=
  prepare_url (DOWNLOAD_BASE_API_URL ++ "/" ++ order_id ++ "/" ++ secure_id ++ "/download")
              [("aak", CEWE_aak); ("clientVersion", CEWE_clientVersion)].

Definition download_photos (order_id secure_id output_folder : string) : M bool :=
  download_file (download_url order_id secure_id) output_folder
                ("photos_" ++ order_id ++ ".zip").

(** ** Batch orchestrator (check_orders.py, [process_csv_file]) *)

(** A row of [csv.DictReader]: column name to value; [None] is the
    [restval] of a short row. *)
Definition row := list (string * option string).

Definition row_lookup (r : row) (k : string) : option (option string) :=
  match find (fun kv => String.eqb (fst kv) k) (rev r) with
  | Some (_, v) => Some v
  | None => None
  end.

(** [row[k].strip()] *)
Definition row_strip_required (r : row) (k : string) : M string :=
  match row_lookup r k with
  | None => raise (KeyError ("'" ++ k ++ "'"))
  | Some None => raise (AttributeError "'NoneType' object has no attribute 'strip'")
  | Some (Some v) => ret (str_strip v)
  end.

(** [(row.get(k) or "")] *)
Definition row_get_or_empty (r : row) (k : string) : string :=
  match row_lookup r k with
  | Some (Some v) => v
  | _ => ""
  end.

(** [s.replace(a, b)] for one-character [a] and [b] *)
Fixpoint str_replace_char (a b : ascii) (s : string) : string :=
  match s with
  | EmptyString => EmptyString
  | String c s' => String (if Ascii.eqb c a then b else c) (str_replace_char a b s')
  end.

Record result_record := mkResult {
  r_order_number : string;
  r_shop_number : string;
  r_identifier : string;
  r_secure_id : string;
  r_cewe_order_id : string;
  r_output_path : string;
  r_status : string;
  r_download_status : string
}.

Definition ALREADY_DOWNLOADED : string := "‚úÖ Already downloaded".
Definition FOLDER_CREATION_FAILED : string := "‚ùå Folder creation failed".
Definition DOWNLOADED : string := "‚úÖ Downloaded".
Definition DOWNLOAD_FAILED : string := "‚ùå Download failed".

Definition sleep_request_delay : M unit := emit (EvSleep REQUEST_DELAY_ms).

(** [output_path.exists() and any(output_path.iterdir())] *)
Definition already_downloaded (p : string) : M bool :=
  x <- get_entry p ;;
  match x with
  | Missing => ret false
  | RegularFile => raise (OSError "NotADirectoryError" ("[Errno 20] Not a directory: '" ++ p ++ "'"))
  | Directory names => ret (negb (Nat.eqb (length names) 0))
  end.

(** [output_path.mkdir(parents=True, exist_ok=True)] *)
Definition mkdir_p (p : string) : M unit :=
  x <- get_entry p ;;
  match x with
  | Directory _ => ret tt
  | RegularFile => raise (OSError "FileExistsError" ("[Errno 17] File exists: '" ++ p ++ "'"))
  | Missing =>
      match mkdir_error E p with
      | Some e => raise e
      | None => set_entry p (Directory []) ;;; emit (EvMkdir p)
      end
  end.

(** The output folder chosen when a download is due. *)
Definition resolve_output_path (csv_output_path ident : string) : string :=
  if str_truthy csv_output_path then resolve E csv_output_path
  else if str_truthy ident then path_join DOWNLOADS_DIR (str_replace_char " " "_" ident)
  else DOWNLOADS_DIR.

(** The order id handed to [download_photos]. *)
Definition download_order_id (cewe_order_id order shop : string) : string :=
  let oid := if str_truthy cewe_order_id then cewe_order_id else order in
  if str_contains "-" oid then oid else shop ++ "-" ++ oid.

(** The download decision of the loop body. *)
Definition should_download (enable_download : bool) (secure_id status_code : string) : bool :=
  enable_download && str_truthy secure_id && is_ready_for_pickup status_code.

(** The download block under [if should_download:]; returns the
    [download_status], or [None] on the folder-creation failure, where the
    loop body appends its record, sleeps and [continue]s. *)
Definition fetch_and_unpack (ident secure_id cewe_order_id order shop csv_output_path : string)
    : M (option string) :=
  let output_path := resolve_output_path csv_output_path ident in
  present <- already_downloaded output_path ;;
  if present then ret (Some ALREADY_DOWNLOADED)
  else
    created <- try_catch (mkdir_p output_path ;;; ret true)
                 (fun e => Some (emit (EvPrint ("  ‚ùå Could not create output folder: " ++ output_path ++ ". Details: " ++ exn_str e)) ;;;
                                 ret false)) ;;
    if negb created then ret None
    else
      success <- download_photos (download_order_id cewe_order_id order shop) secure_id output_path ;;
      ret (Some (if success then DOWNLOADED else DOWNLOAD_FAILED)).

(** One iteration of the [for row in reader] loop: the appended record. *)
Definition process_row (enable_download : bool) (r : row) : M result_record :=
  order <- row_strip_required r "order_number" ;;
  shop <- row_strip_required r "shop_number" ;;
  let ident := str_strip (row_get_or_empty r "identifier") in
  let secure_id := str_upper (str_strip (row_get_or_empty r "secure_id")) in
  let cewe_order_id := str_strip (row_get_or_empty r "cewe_order_id") in
  let csv_output_path := str_strip (row_get_or_empty r "output_path") in
  res <- fetch_order_status order shop ;;
  let '(status_code, status) := res in
  let mk ds := mkResult order shop ident secure_id cewe_order_id csv_output_path status ds in
  if should_download enable_download secure_id status_code then
    ds <- fetch_and_unpack ident secure_id cewe_order_id order shop csv_output_path ;;
    match ds with
    | None => sleep_request_delay ;;; ret (mk FOLDER_CREATION_FAILED)
    | Some d => sleep_request_delay ;;; ret (mk d)
    end
  else sleep_request_delay ;;; ret (mk "").

Fixpoint process_rows (enable_download : bool) (results : list result_record) (rows : list row)
    : M (list result_record) :=
  match rows with
  | [] => ret results
  | r :: rest =>
      rec <- process_row enable_download r ;;
      process_rows enable_download (results ++ [rec]) rest
  end.

(** [process_csv_file(file_path, enable_download)] on the rows read from the file. *)
Definition process_csv_file (rows : list row) (enable_download : bool) : M (list result_record) :=
  process_rows enable_download [] rows.

End Program.

(** ** Entry point (check_orders.py, [main]) *)

Definition ORDERS_DIR : string := "orders".

(** [s.endswith(suffix)] *)
Definition str_endswith (suffix s : string) : bool :=
  let n := String.length s in
  let m := String.length suffix in
  (m <=? n)%nat && String.eqb (substring (n - m) m s) suffix.

(** [sorted(names)]: Python orders [str] by code point, which on UTF-8
    bytes is the byte order [String.leb] compares by. *)
Fixpoint insert_sorted (x : string) (l : list string) : list string :=
  match l with
  | [] => [x]
  | y :: l' => if String.leb x y then x :: l else y :: insert_sorted x l'
  end.

Fixpoint sort_strings (l : list string) : list string :=
  match l with
  | [] => []
  | x :: l' => insert_sorted x (sort_strings l')
  end.

(** The files of the listing that pass the two [continue]s of the loop of
    [main].  The lower-casing is the ASCII one: no other character lowers
    to one of the letters of ".csv" or "orders_template.csv" at the end of
    a name. *)
Definition is_order_csv (filename : string) : bool :=
  str_endswith ".csv" (str_lower filename) &&
  negb (String.eqb (str_lower filename) "orders_template.csv").

Definition select_csv_files (listing : list string) : list string :=
  filter is_order_csv (sort_strings listing).

(** [any(r.get(field) for r in results)] *)
Definition any_truthy (field : result_record -> string) (results : list result_record) : bool :=
  existsb (fun r => str_truthy (field r)) results.

(** The [columns] of the summary table of one file. *)
Definition summary_columns (results : list result_record) : list string :=
  let has_downloads := any_truthy r_download_status results in
  let has_secure_ids := any_truthy r_secure_id results in
  let has_cewe_ids := any_truthy r_cewe_order_id results in
  let has_output_paths := any_truthy r_output_path results in
  let columns := ["Order Number"; "Shop Number"; "Identifier"] in
  let columns := if has_secure_ids then (columns ++ ["Secure ID"])%list else columns in
  let columns := if has_cewe_ids then (columns ++ ["CEWE Order ID"])%list else columns in
  let columns := if has_output_paths then (columns ++ ["Output Path"])%list else columns in
  let columns := (columns ++ ["Status"])%list in
  if has_downloads then (columns ++ ["Download"])%list else columns.

(** The [row] handed to [table.add_row] for the record [r]. *)
Definition summary_row (results : list result_record) (r : result_record) : list string :=
  let has_downloads := any_truthy r_download_status results in
  let has_secure_ids := any_truthy r_secure_id results in
  let has_cewe_ids := any_truthy r_cewe_order_id results in
  let has_output_paths := any_truthy r_output_path results in
  let row := [r_order_number r; r_shop_number r; r_identifier r] in
  let row := if has_secure_ids then (row ++ [r_secure_id r])%list else row in
  let row := if has_cewe_ids then (row ++ [r_cewe_order_id r])%list else row in
  let row := if has_output_paths then (row ++ [r_output_path r])%list else row in
  let row := (row ++ [r_status r])%list in
  if has_downloads then (row ++ [r_download_status r])%list else row.

(** A summary table: its columns and its rows. *)
Definition summary_table (results : list result_record) : list string * list (list string) :=
  (summary_columns results, map (summary_row results) results).

Section Main.

Variable E : env.

(** The rows [csv.DictReader] yields for a CSV file (decoding errors are
    not modelled). *)
Variable read_csv : string -> list row.

(** [os.listdir(p)] *)
Definition listdir (p : string) : M (list string) :=
  x <- get_entry p ;;
  match x with
  | Directory names => ret names
  | RegularFile => raise (OSError "NotADirectoryError" ("[Errno 20] Not a directory: '" ++ p ++ "'"))
  | Missing => raise (OSError "FileNotFoundError" ("[Errno 2] No such file or directory: '" ++ p ++ "'"))
  end.

(** [open(file_path, newline="", encoding="utf-8")] *)
Definition open_csv (file_path : string) : M unit :=
  x <- get_entry file_path ;;
  match x with
  | RegularFile => ret tt
  | Directory _ => raise (OSError "IsADirectoryError" ("[Errno 21] Is a directory: '" ++ file_path ++ "'"))
  | Missing => raise (OSError "FileNotFoundError" ("[Errno 2] No such file or directory: '" ++ file_path ++ "'"))
  end.

(** The [for filename in sorted(os.listdir(ORDERS_DIR))] loop: [all_results]
    as an association list in insertion order (the names of a listing are
    distinct). *)
Fixpoint main_files (download : bool) (files : list string)
    (all_results : list (string * list result_record))
    : M (list (string * list result_record)) :=
  match files with
  | [] => ret all_results
  | filename :: rest =>
      if negb (str_endswith ".csv" (str_lower filename)) then main_files download rest all_results
      else if String.eqb (str_lower filename) "orders_template.csv" then
        main_files download rest all_results
      else
        let file_path := path_join ORDERS_DIR filename in
        emit (EvPrint (NL ++ " Processing file: " ++ filename)) ;;;
        open_csv file_path ;;;
        file_results <- process_csv_file E (read_csv file_path) download ;;
        main_files download rest (all_results ++ [(filename, file_results)])%list
  end.

(** The summary loop: prints a header per file; the [PrettyTable] it then
    prints is returned instead of rendered. *)
Fixpoint print_tables (all_results : list (string * list result_record))
    : M (list (string * (list string * list (list string)))) :=
  match all_results with
  | [] => ret []
  | (filename, results) :: rest =>
      emit (EvPrint (NL ++ "=== " ++ filename ++ " ===")) ;;;
      tables <- print_tables rest ;;
      ret ((filename, summary_table results) :: tables)
  end.

(** [main()] with [args.download = download]; the result is the list of
    summary tables printed, in order. *)
Definition main (download : bool) : M (list (string * (list string * list (list string)))) :=
  x <- get_entry ORDERS_DIR ;;
  match x with
  | Missing => emit (EvPrint ("‚ùå Folder '" ++ ORDERS_DIR ++ "' not found.")) ;;; ret []
  | _ =>
      ok <- (if download then
               d <- get_entry DOWNLOADS_DIR ;;
               match d with
               | Missing =>
                   try_catch
                     (mkdir_p E DOWNLOADS_DIR ;;;
                      emit (EvPrint ("üìÅ Created download folder: " ++ DOWNLOADS_DIR)) ;;;
                      ret true)
                     (fun e => Some (emit (EvPrint ("‚ùå Could not create download folder: " ++
                                                     DOWNLOADS_DIR ++ ". Details: " ++ exn_str e)) ;;;
                                     ret false))
               | _ => ret true
               end
             else ret true) ;;
      if negb ok then ret []
      else
        names <- listdir ORDERS_DIR ;;
        all_results <- main_files download (sort_strings names) [] ;;
        emit (EvPrint (NL ++ "================= ORDER STATUS SUMMARY =================")) ;;;
        print_tables all_results
  end.

End Main.

(** * Notions used by the properties *)



Definition out_world {A} (o : outcome A) : world :=
  match o with Ok _ w => w | Raised _ w => w end.

(** [m] appends to the trace, and only events satisfying [P]. *)
Definition appends (P : event -> Prop) {A} (m : M A) : Prop :=
  forall w, exists tr, Forall P tr /\ w_trace (out_world (m w)) = (w_trace w ++ tr)%list.

Definition handler_appends (P : event -> Prop) {A} (o : option (M A)) : Prop :=
  match o with Some k => appends P k | None => True end.

(** [m] only ever returns values satisfying [Q]. *)
Definition returns {A} (Q : A -> Prop) (m : M A) : Prop :=
  forall w a w', m w = Ok a w' -> Q a.

(** Events that are not pauses. *)
Definition not_sleep (ev : event) : Prop :=
  match ev with EvSleep _ => False | _ => True end.

(** The total pause of a trace, in milliseconds. *)
Fixpoint total_sleep (tr : list event) : nat :=
  match tr with
  | [] => 0
  | EvSleep ms :: tr' => ms + total_sleep tr'
  | _ :: tr' => total_sleep tr'
  end.

(** The [download_status] values of the download block. *)
Definition download_status_value (o : option string) : Prop :=
  match o with
  | Some d => d = ALREADY_DOWNLOADED \/ d = DOWNLOADED \/ d = DOWNLOAD_FAILED
  | None => True
  end.

(** The value [main] prints under a summary-table column for a result. *)
Definition column_field (column : string) (r : result_record) : string :=
  if String.eqb column "Order Number" then r_order_number r
  else if String.eqb column "Shop Number" then r_shop_number r
  else if String.eqb column "Identifier" then r_identifier r
  else if String.eqb column "Secure ID" then r_secure_id r
  else if String.eqb column "CEWE Order ID" then r_cewe_order_id r
  else if String.eqb column "Output Path" then r_output_path r
  else if String.eqb column "Status" then r_status r
  else if String.eqb column "Download" then r_download_status r
  else "".

(** Events of a run that only queries statuses: requests, prints, pauses. *)
Definition status_only (ev : event) : Prop :=
  match ev with EvStatusGet _ | EvPrint _ | EvSleep _ => True | _ => False end.

(** [rec] is the result record built from the cells of CSV row [r]. *)
Definition record_of_row (r : row) (rec : result_record) : Prop :=
  exists order shop,
    row_lookup r "order_number" = Some (Some order) /\
    row_lookup r "shop_number" = Some (Some shop) /\
    r_order_number rec = str_strip order /\ r_shop_number rec = str_strip shop /\
    r_identifier rec = str_strip (row_get_or_empty r "identifier") /\
    r_secure_id rec = str_upper (str_strip (row_get_or_empty r "secure_id")) /\
    r_cewe_order_id rec = str_strip (row_get_or_empty r "cewe_order_id") /\
    r_output_path rec = str_strip (row_get_or_empty r "output_path").

(** ** Concrete inputs *)

(** The status endpoint knows order 541032-050842 as delivered; any other
    query fails with a connection reset. *)
Definition demo_status (full_order_id : string) : status_response :=
  if String.eqb full_order_id "541032-050842"
  then StatusObject [("summaryStateCode", JStr "DELIVERED");
                     ("summaryStateText", JStr "Abholbereit")]
  else StatusRaises (RequestException
         "('Connection aborted.', ConnectionResetError(104, 'Connection reset by peer'))").

(** Downloads complete, but the payload is not a ZIP archive. *)
Definition demo_env : env :=
  mkEnv demo_status
        (fun _ => DownloadStream (Some "4") (StreamComplete NotAZip))
        (fun p => ("/home/user/" ++ p)%string)
        (fun _ => None) (fun _ => None).

(** Same, but the server sends a malformed [Content-Length] header. *)
Definition badlen_env : env :=
  mkEnv demo_status
        (fun _ => DownloadStream (Some "abc") (StreamComplete (ValidZip ["IMG_0001.jpg"])))
        (fun p => ("/home/user/" ++ p)%string)
        (fun _ => None) (fun _ => None).

(** "downloads/Anna" holds a photo, "downloads/Bob" is empty and
    "/home/user/notes.txt" is a regular file. *)
Definition demo_fs (p : string) : fs_entry :=
  if String.eqb p "downloads/Anna" then Directory ["IMG_0001.jpg"]
  else if String.eqb p "downloads/Bob" then Directory []
  else if String.eqb p "/home/user/notes.txt" then RegularFile
  else Missing.

Definition demo_world : world := mkWorld demo_fs [].

Definition row_base : row :=
  [("order_number", Some "050842"); ("shop_number", Some "541032");
   ("identifier", Some "Anna")].

Definition row_upper : row := (row_base ++ [("secure_id", Some "ZTVLYEQ5")])%list.

Definition row_lower : row := (row_base ++ [("secure_id", Some " ztvlyeq5 ")])%list.

(** A short CSV row: its [secure_id] cell is missing. *)
Definition row_no_secure : row := (row_base ++ [("secure_id", None)])%list.

Definition row_unreachable : row :=
  [("order_number", Some "999999"); ("shop_number", Some "541032")].

Definition row_bob : row :=
  [("order_number", Some "050842"); ("shop_number", Some "541032");
   ("identifier", Some "Bob"); ("secure_id", Some "ZTVLYEQ5")].

(** An [output_path] cell naming an existing regular file. *)
Definition row_file_output : row :=
  [("order_number", Some "050842"); ("shop_number", Some "541032");
   ("secure_id", Some "ZTVLYEQ5"); ("output_path", Some "notes.txt")].


(** The connection drops in the middle of the download body. *)
Definition broken_env : env :=
  mkEnv demo_status
        (fun _ => DownloadStream (Some "4")
                    (StreamBroken (RequestException "Connection broken: IncompleteRead")))
        (fun p => ("/home/user/" ++ p)%string)
        (fun _ => None) (fun _ => None).


Definition permission_denied (p : string) : exn :=
  OSError "PermissionError" ("[Errno 13] Permission denied: '" ++ p ++ "'").

(** A read-only disk: no directory can be created and no file opened. *)
Definition readonly_env : env :=
  mkEnv demo_status
        (fun _ => DownloadStream (Some "4") (StreamComplete (ValidZip ["IMG_0002.jpg"])))
        (fun p => ("/home/user/" ++ p)%string)
        (fun p => Some (permission_denied p)) (fun p => Some (permission_denied p)).

(** Status bodies without [summaryStateText] (order 050842), that are a
    JSON list (order 000001), or whose [summaryStateCode] is a number. *)
Definition terse_status (full_order_id : string) : status_response :=
  if String.eqb full_order_id "541032-050842"
  then StatusObject [("summaryStateCode", JStr "DELIVERED")]
  else if String.eqb full_order_id "541032-000001" then StatusNonObject "list"
  else StatusObject [("summaryStateCode", JOther "int" "7" true)].

Definition terse_env : env :=
  mkEnv terse_status
        (fun _ => DownloadStream (Some "4") (StreamComplete NotAZip))
        (fun p => ("/home/user/" ++ p)%string)
        (fun _ => None) (fun _ => None).

(** A delivered order whose identifier has a space and no folder yet. *)
Definition row_carla : row :=
  [("order_number", Some "050842"); ("shop_number", Some "541032");
   ("identifier", Some "Carla Maria"); ("secure_id", Some "ZTVLYEQ5")].

(** A CSV row without an [order_number] column. *)
Definition row_no_order : row := [("shop_number", Some "541032")].

(** An orders folder with two order files, the template (in two spellings)
    and a note; the other paths are those of [demo_fs]. *)
Definition orders_fs (p : string) : fs_entry :=
  if String.eqb p "orders"
  then Directory ["b.csv"; "orders_template.csv"; "notes.txt"; "A.CSV"; "Orders_Template.CSV"]
  else if String.eqb p "orders/A.CSV" then RegularFile
  else if String.eqb p "orders/b.csv" then RegularFile
  else demo_fs p.

Definition orders_world : world := mkWorld orders_fs [].

(** The rows [csv.DictReader] yields for each file. *)
Definition orders_csv (file_path : string) : list row :=
  if String.eqb file_path "orders/A.CSV" then [row_upper]
  else [row_no_secure; row_unreachable].

(** * Properties *)

(** ** Characters and strings *)






Lemma ascii_upper_length : forall s, String.length (str_upper s) = String.length s.
Proof. induction s; simpl; auto. Qed.






(** [prefix n h] is the test that [h] starts with [n]. *)
Lemma prefix_app : forall n h, prefix n h = true <-> exists b, h = n ++ b.
Proof.
  induction n as [| c n IH]; intros h; simpl.
  - split; [intros _; exists h; reflexivity | destruct h; reflexivity].
  - destruct h as [| d h].
    + split; [discriminate | intros [b Hb]; discriminate].
    + simpl. destruct (Ascii.ascii_dec c d) as [<- | Hne].
      * rewrite IH. split; intros [b Hb]; exists b; [rewrite Hb | injection Hb]; auto.
      * split; [discriminate | intros [b Hb]; injection Hb; intros; congruence].
Qed.

(** [needle in hay] holds iff [hay] has [needle] as a substring. *)
Lemma str_contains_app : forall n h,
  str_contains n h = true <-> exists a b, h = a ++ n ++ b.
Proof.
  intros n h. induction h as [| d h IH]; cbn [str_contains]; rewrite orb_true_iff, prefix_app.
  - split.
    + intros [[b Hb] | Hf]; [exists "", b; exact Hb | discriminate].
    + intros [a [b Hb]]. left. destruct a; [exists b; exact Hb | discriminate].
  - rewrite IH. split.
    + intros [[b Hb] | [a [b Hb]]];
        [exists "", b; exact Hb | exists (String d a), b; rewrite Hb; reflexivity].
    + intros [a [b Hb]]. destruct a as [| x a];
        [left; exists b; exact Hb | right; injection Hb as _ Hb; exists a, b; exact Hb].
Qed.


(** ** Status classification *)

Section Classifier.

Variables (code text : string).




End Classifier.


Example add_status_emoji_overlap :
  add_status_emoji "shipped_error" "x" = ("üì¶ x", []).
Proof. reflexivity. Qed.

Example build_full_order_id_examples :
  build_full_order_id "050842" "541032" = "541032-050842" /\
  build_full_order_id "541032-050842" "999999" = "541032-050842".
Proof. split; reflexivity. Qed.

(** ** Properties of the pure functions *)






(** ** The orchestrator and the downloader *)

Open Scope list_scope.

Section Appends.
Variable P : event -> Prop.

Lemma appends_ret {A} (a : A) : appends P (ret a).
Proof. intro w. exists []. rewrite app_nil_r. auto. Qed.

Lemma appends_raise {A} (e : exn) : appends P (@raise A e).
Proof. intro w. exists []. rewrite app_nil_r. auto. Qed.

Lemma appends_emit ev : P ev -> appends P (emit ev).
Proof. intros Hp w. exists [ev]. auto. Qed.

Lemma appends_emit_prints ls :
  (forall l, P (EvPrint l)) -> appends P (emit_prints ls).
Proof.
  intros Hp w. exists (map EvPrint ls). split; [| reflexivity].
  apply Forall_forall. intros x Hx. apply in_map_iff in Hx. destruct Hx as [l [<- _]]. auto.
Qed.

Lemma appends_get_entry p : appends P (get_entry p).
Proof. intro w. exists []. rewrite app_nil_r. auto. Qed.

Lemma appends_set_entry p x : appends P (set_entry p x).
Proof. intro w. exists []. rewrite app_nil_r. auto. Qed.

Lemma appends_bind {A B} (m : M A) (k : A -> M B) :
  appends P m -> (forall a, appends P (k a)) -> appends P (bind m k).
Proof.
  intros Hm Hk w. unfold bind. destruct (Hm w) as [tr1 [F1 E1]].
  destruct (m w) as [a w1 | e w1]; simpl in *.
  - destruct (Hk a w1) as [tr2 [F2 E2]]. exists (tr1 ++ tr2).
    split; [apply Forall_app; auto | rewrite E2, E1, app_assoc; reflexivity].
  - exists tr1. auto.
Qed.

Lemma appends_try {A} (m : M A) (h : exn -> option (M A)) :
  appends P m -> (forall e, handler_appends P (h e)) -> appends P (try_catch m h).
Proof.
  intros Hm Hh w. unfold try_catch. destruct (Hm w) as [tr1 [F1 E1]].
  destruct (m w) as [a w1 | e w1]; simpl in *; [exists tr1; auto |].
  specialize (Hh e). destruct (h e) as [k |]; simpl in *; [| exists tr1; auto].
  destruct (Hh w1) as [tr2 [F2 E2]]. exists (tr1 ++ tr2).
  split; [apply Forall_app; auto | rewrite E2, E1, app_assoc; reflexivity].
Qed.

End Appends.

Ltac appends_step :=
  match goal with
  | |- appends _ (bind _ _) => apply appends_bind; [| intro]
  | |- appends _ (try_catch _ _) => apply appends_try; [| intro; cbn beta]
  | |- handler_appends _ (Some _) => cbn [handler_appends]
  | |- handler_appends _ None => exact I
  | |- appends _ (emit _) => apply appends_emit; simpl; try exact I
  | |- appends _ (emit_prints _) => apply appends_emit_prints; simpl; intros; try exact I
  | |- appends _ (ret _) => apply appends_ret
  | |- appends _ (raise _) => apply appends_raise
  | |- appends _ (get_entry _) => apply appends_get_entry
  | |- appends _ (set_entry _ _) => apply appends_set_entry
  | |- appends _ (let '(_, _) := ?p in _) => destruct p
  | |- appends _ (if ?b then _ else _) => destruct b
  | |- handler_appends _ (if ?b then _ else _) => destruct b
  | |- appends _ (match ?x with _ => _ end) => destruct x
  | |- handler_appends _ (match ?x with _ => _ end) => destruct x
  end.

Ltac appends_solve := repeat appends_step.


Lemma fetch_order_status_no_sleep E o s : appends not_sleep (fetch_order_status E o s).
Proof. unfold fetch_order_status. appends_solve. Qed.

Lemma fetch_and_unpack_no_sleep E a b c d e f :
  appends not_sleep (fetch_and_unpack E a b c d e f).
Proof.
  unfold fetch_and_unpack, already_downloaded, mkdir_p, download_photos, download_file,
    write_and_extract, add_names, remove_name.
  appends_solve.
Qed.


Lemma fetch_order_status_total E o s w : exists code status ps,
  fetch_order_status E o s w =
  Ok (code, status) (mkWorld (w_fs w) (w_trace w ++ EvStatusGet (build_full_order_id o s) :: map EvPrint ps)).
Proof.
  unfold fetch_order_status, try_catch, bind, emit, raise, ret, emit_prints. simpl.
  destruct (status_api E (build_full_order_id o s)) as [e | ty | data]; simpl.
  - eexists _, _, []. reflexivity.
  - eexists _, _, []. reflexivity.
  - destruct (dict_get data "summaryStateCode" (JStr "")) as [code | ty r t]; simpl.
    + destruct (add_status_emoji code _) as [fs ps]. simpl.
      eexists _, _, ps. rewrite <- app_assoc. reflexivity.
    + eexists _, _, []. reflexivity.
Qed.



Lemma returns_ret {A} (Q : A -> Prop) a : Q a -> returns Q (ret a).
Proof. intros Hq w a' w' H. injection H as <- _. exact Hq. Qed.

Lemma returns_bind {A B} (Q : B -> Prop) (m : M A) (k : A -> M B) :
  (forall a, returns Q (k a)) -> returns Q (bind m k).
Proof.
  intros Hk w b w' H. unfold bind in H.
  destruct (m w) as [a w1 | e w1]; [exact (Hk a w1 b w' H) | discriminate].
Qed.


Lemma fetch_and_unpack_returns E a b c d e f :
  returns download_status_value (fetch_and_unpack E a b c d e f).
Proof.
  unfold fetch_and_unpack. apply returns_bind. intros [|].
  - apply returns_ret. simpl. auto.
  - apply returns_bind. intro created. destruct (negb created).
    + apply returns_ret. exact I.
    + apply returns_bind. intros [|]; apply returns_ret; simpl; auto.
Qed.

Lemma str_truthy_upper s : str_truthy (str_upper s) = str_truthy s.
Proof. destruct s; reflexivity. Qed.

Lemma str_truthy_iff s : str_truthy s = true <-> s <> "".
Proof.
  unfold str_truthy. rewrite negb_true_iff.
  destruct (String.eqb_spec s ""); split; congruence.
Qed.

Lemma should_download_iff en secure code :
  should_download en (str_upper secure) code = true <->
  en = true /\ secure <> "" /\ is_ready_for_pickup code = true.
Proof.
  unfold should_download. rewrite str_truthy_upper, !andb_true_iff, str_truthy_iff. tauto.
Qed.

Lemma download_status_nonempty : forall d,
  download_status_value (Some d) -> d <> "".
Proof. intros d [-> | [-> | ->]]; discriminate. Qed.

(** C1: for a row whose status fetch returned normally, the row's
    download-status field is non-empty (a download was attempted) exactly when
    downloads are enabled, the stripped secure id is non-empty and the fetched
    status code is ready for pickup; when the field stays empty, the only
    effect after the status fetch is the one pause, so the archive fetcher
    (pre-check, folder creation, download) was never run. *)
Theorem download_gate : forall E en r order shop w code status w1 rec w',
  row_lookup r "order_number" = Some (Some order) ->
  row_lookup r "shop_number" = Some (Some shop) ->
  fetch_order_status E (str_strip order) (str_strip shop) w = Ok (code, status) w1 ->
  process_row E en r w = Ok rec w' ->
  (r_download_status rec <> "" <->
   en = true /\ str_strip (row_get_or_empty r "secure_id") <> "" /\
   is_ready_for_pickup code = true) /\
  (r_download_status rec = "" ->
   w' = mkWorld (w_fs w1) (w_trace w1 ++ [EvSleep REQUEST_DELAY_ms])).
Proof.
  intros E en r order shop w code status w1 rec w' H1 H2 Hf Hrun.
  unfold process_row, row_strip_required in Hrun. rewrite H1, H2 in Hrun.
  cbv [bind ret] in Hrun. rewrite Hf in Hrun.
  rewrite <- should_download_iff.
  destruct (should_download en _ code) eqn:Hsd.
  - destruct (fetch_and_unpack E _ _ _ _ _ _ w1) as [[d |] w2 | e w2] eqn:Hfu;
      [| | discriminate];
      unfold sleep_request_delay, emit in Hrun; injection Hrun as <- <-; simpl.
    + pose proof (fetch_and_unpack_returns E _ _ _ _ _ _ w1 _ w2 Hfu) as Hd.
      apply download_status_nonempty in Hd. tauto.
    + split; [split; [reflexivity | discriminate] | discriminate].
  - unfold sleep_request_delay, emit in Hrun. injection Hrun as <- <-. simpl.
    split; [split; [intro H; contradiction H; reflexivity | discriminate] | reflexivity].
Qed.


(** C6: when the status request fails with an exception, the fetcher returns
    an empty raw code and the warning glyph followed by " Error: " and the
    exception's text, after a single request (no retry); the batch loop then
    records that row with this label and an empty download status, pauses, and
    goes on with the remaining rows. *)
Theorem status_failure_recorded : forall E en r rest acc order shop e w,
  row_lookup r "order_number" = Some (Some order) ->
  row_lookup r "shop_number" = Some (Some shop) ->
  status_api E (build_full_order_id (str_strip order) (str_strip shop)) = StatusRaises e ->
  let full_order_id := build_full_order_id (str_strip order) (str_strip shop) in
  let label := (WARNING_GLYPH ++ " Error: " ++ exn_str e)%string in
  fetch_order_status E (str_strip order) (str_strip shop) w =
    Ok ("", label) (mkWorld (w_fs w) (w_trace w ++ [EvStatusGet full_order_id])) /\
  process_rows E en acc (r :: rest) w =
    process_rows E en
      (acc ++ [mkResult (str_strip order) (str_strip shop)
                 (str_strip (row_get_or_empty r "identifier"))
                 (str_upper (str_strip (row_get_or_empty r "secure_id")))
                 (str_strip (row_get_or_empty r "cewe_order_id"))
                 (str_strip (row_get_or_empty r "output_path"))
                 label ""])
      rest
      (mkWorld (w_fs w) (w_trace w ++ [EvStatusGet full_order_id; EvSleep REQUEST_DELAY_ms])).
Proof.
  intros E en r rest acc order shop e w H1 H2 Hapi full_order_id label.
  subst full_order_id label.
  assert (Hf : fetch_order_status E (str_strip order) (str_strip shop) w =
    Ok ("", (WARNING_GLYPH ++ " Error: " ++ exn_str e)%string)
       (mkWorld (w_fs w) (w_trace w ++ [EvStatusGet (build_full_order_id (str_strip order) (str_strip shop))]))).
  { unfold fetch_order_status, try_catch, bind, emit, raise, ret. simpl.
    rewrite Hapi. reflexivity. }
  split; [exact Hf |].
  simpl process_rows. unfold bind at 1.
  unfold process_row, row_strip_required. rewrite H1, H2.
  cbv [bind ret]. rewrite Hf.
  assert (Hsd : should_download en (str_upper (str_strip (row_get_or_empty r "secure_id"))) "" = false)
    by (unfold should_download; rewrite !andb_false_r; reflexivity).
  rewrite Hsd. unfold sleep_request_delay, emit. simpl. rewrite <- app_assoc. reflexivity.
Qed.


(** C10: two rows that agree on every column but the secure id, and whose
    secure ids agree after stripping and upper-casing, are processed
    identically (same record, same requests, same download URL, same world);
    and the secure id stored in the record is the stripped, upper-cased raw
    value. *)
Theorem secure_id_normalized : forall E en r1 r2 w,
  (forall k, k <> "secure_id" -> row_lookup r1 k = row_lookup r2 k) ->
  str_upper (str_strip (row_get_or_empty r1 "secure_id")) =
    str_upper (str_strip (row_get_or_empty r2 "secure_id")) ->
  process_row E en r1 w = process_row E en r2 w /\
  (forall rec w', process_row E en r1 w = Ok rec w' ->
     r_secure_id rec = str_upper (str_strip (row_get_or_empty r1 "secure_id"))).
Proof.
  intros E en r1 r2 w Hk Hsec.
  assert (Hg : forall k, k <> "secure_id" -> row_get_or_empty r1 k = row_get_or_empty r2 k)
    by (intros k Hne; unfold row_get_or_empty; rewrite (Hk k Hne); reflexivity).
  split.
  - unfold process_row, row_strip_required.
    rewrite (Hk "order_number"), (Hk "shop_number"), (Hg "identifier"),
      (Hg "cewe_order_id"), (Hg "output_path"), Hsec by discriminate.
    reflexivity.
  - intros rec w' Hrun. unfold process_row, row_strip_required in Hrun.
    destruct (row_lookup r1 "order_number") as [[order |] |]; [| discriminate | discriminate].
    destruct (row_lookup r1 "shop_number") as [[shop |] |]; [| discriminate | discriminate].
    cbv [bind ret] in Hrun.
    destruct (fetch_order_status E (str_strip order) (str_strip shop) w) as [[code status] w1 | e w1];
      [| discriminate].
    unfold sleep_request_delay, emit in Hrun.
    destruct (should_download _ _ _).
    + destruct (fetch_and_unpack E _ _ _ _ _ _ w1) as [[d |] w2 | e w2];
        [| | discriminate]; injection Hrun as <- _; reflexivity.
    + injection Hrun as <- _; reflexivity.
Qed.

Lemma total_sleep_app a b : total_sleep (a ++ b) = total_sleep a + total_sleep b.
Proof. induction a as [| [] a IH]; simpl; rewrite ?IH; lia. Qed.

Lemma total_sleep_no_sleep tr : Forall not_sleep tr -> total_sleep tr = 0.
Proof. induction 1 as [| [] tr H _ IH]; simpl in *; try contradiction; auto. Qed.

Lemma row_strip_required_world r k w :
  out_world (row_strip_required r k w) = w.
Proof. unfold row_strip_required. destruct (row_lookup r k) as [[] |]; reflexivity. Qed.

(** One loop iteration that completes ends with exactly one pause, and
    pauses nowhere else. *)
Lemma process_row_one_pause E en r w rec w' :
  process_row E en r w = Ok rec w' ->
  exists tr, Forall not_sleep tr /\
             w_trace w' = w_trace w ++ tr ++ [EvSleep REQUEST_DELAY_ms].
Proof.
  intro Hrun. unfold process_row in Hrun. cbv [bind ret] in Hrun.
  destruct (row_strip_required r "order_number" w) as [order w0 | e w0] eqn:Ho; [| discriminate].
  pose proof (row_strip_required_world r "order_number" w) as Hw0. rewrite Ho in Hw0. simpl in Hw0. subst w0.
  destruct (row_strip_required r "shop_number" w) as [shop w0 | e w0] eqn:Hs; [| discriminate].
  pose proof (row_strip_required_world r "shop_number" w) as Hw0. rewrite Hs in Hw0. simpl in Hw0. subst w0.
  destruct (fetch_order_status_no_sleep E order shop w) as [tr1 [F1 T1]].
  destruct (fetch_order_status E order shop w) as [[code status] w1 | e w1]; [| discriminate].
  simpl in T1. unfold sleep_request_delay, emit in Hrun.
  destruct (should_download _ _ _).
  - destruct (fetch_and_unpack_no_sleep E
      (str_strip (row_get_or_empty r "identifier"))
      (str_upper (str_strip (row_get_or_empty r "secure_id")))
      (str_strip (row_get_or_empty r "cewe_order_id")) order shop
      (str_strip (row_get_or_empty r "output_path")) w1) as [tr2 [F2 T2]].
    destruct (fetch_and_unpack E _ _ _ _ _ _ w1) as [[d |] w2 | e w2];
      [| | discriminate]; injection Hrun as _ <-; simpl in T2 |- *;
      exists (tr1 ++ tr2); (split; [apply Forall_app; auto |]);
      rewrite T2, T1, !app_assoc; reflexivity.
  - injection Hrun as _ <-. simpl. exists tr1. split; [exact F1 |].
    rewrite T1, app_assoc. reflexivity.
Qed.

(** C9: when the batch returns normally, its trace splits into one segment
    per input row, each segment free of pauses and followed by exactly one
    pause of REQUEST_DELAY; so the total injected delay is the number of rows
    times REQUEST_DELAY. *)
Theorem process_csv_file_pacing : forall E en rows w results w',
  process_csv_file E rows en w = Ok results w' ->
  exists segs,
    length segs = length rows /\
    Forall (Forall not_sleep) segs /\
    w_trace w' = w_trace w ++ concat (map (fun tr => tr ++ [EvSleep REQUEST_DELAY_ms]) segs) /\
    total_sleep (concat (map (fun tr => tr ++ [EvSleep REQUEST_DELAY_ms]) segs)) =
      length rows * REQUEST_DELAY_ms.
Proof.
  intros E en rows. unfold process_csv_file. generalize (@nil result_record) as acc.
  induction rows as [| r rows IH]; intros acc w results w' Hrun.
  - simpl in Hrun. injection Hrun as _ <-. exists []. simpl. rewrite app_nil_r. auto.
  - simpl in Hrun. unfold bind in Hrun.
    destruct (process_row E en r w) as [rec w1 | e w1] eqn:Hr; [| discriminate].
    destruct (process_row_one_pause E en r w rec w1 Hr) as [tr [F T]].
    destruct (IH _ _ _ _ Hrun) as [segs [L [Fs [Ts S]]]].
    exists (tr :: segs). simpl. repeat split.
    + lia.
    + constructor; assumption.
    + rewrite Ts, T, !app_assoc. reflexivity.
    + rewrite total_sleep_app, S, total_sleep_app, total_sleep_no_sleep by assumption.
      simpl. lia.
Qed.




(** * Witnesses and counterexamples on concrete inputs *)

Lemma download_gate_witness :
  let status := fst (add_status_emoji "DELIVERED" "Abholbereit") in
  process_row demo_env true row_no_secure demo_world =
    Ok (mkResult "050842" "541032" "Anna" "" "" "" status "")
       (mkWorld demo_fs [EvStatusGet "541032-050842"; EvSleep REQUEST_DELAY_ms]) /\
  (r_download_status (mkResult "050842" "541032" "Anna" "" "" "" status "") <> "" <->
   true = true /\ str_strip (row_get_or_empty row_no_secure "secure_id") <> "" /\
   is_ready_for_pickup "DELIVERED" = true).
Proof.
  intro status. split; [reflexivity |].
  apply (proj1 (download_gate demo_env true row_no_secure "050842" "541032" demo_world
                  "DELIVERED" status (mkWorld demo_fs [EvStatusGet "541032-050842"])
                  _ _ eq_refl eq_refl eq_refl eq_refl)).
Defined.


Lemma status_failure_recorded_witness :
  fetch_order_status demo_env "999999" "541032" demo_world =
  Ok ("", (WARNING_GLYPH ++ " Error: " ++
           "('Connection aborted.', ConnectionResetError(104, 'Connection reset by peer'))")%string)
     (mkWorld demo_fs [EvStatusGet "541032-999999"]).
Proof.
  apply (proj1 (status_failure_recorded demo_env true row_unreachable [] [] "999999" "541032"
    (RequestException "('Connection aborted.', ConnectionResetError(104, 'Connection reset by peer'))")
    demo_world eq_refl eq_refl eq_refl)).
Defined.

Lemma secure_id_normalized_witness :
  process_row demo_env true row_lower demo_world = process_row demo_env true row_upper demo_world.
Proof.
  refine (proj1 (secure_id_normalized demo_env true row_lower row_upper demo_world _ eq_refl)).
  intros k Hk.
  assert (Hne : String.eqb "secure_id" k = false) by (apply String.eqb_neq; congruence).
  unfold row_lookup, row_lower, row_upper. rewrite !rev_app_distr.
  cbn [rev app find fst]. rewrite Hne. reflexivity.
Defined.

Lemma process_csv_file_pacing_witness : exists segs,
  length segs = 3 /\
  [EvStatusGet "541032-050842"; EvSleep REQUEST_DELAY_ms;
   EvStatusGet "541032-050842"; EvSleep REQUEST_DELAY_ms;
   EvStatusGet "541032-999999"; EvSleep REQUEST_DELAY_ms] =
    w_trace demo_world ++ concat (map (fun tr => tr ++ [EvSleep REQUEST_DELAY_ms]) segs) /\
  total_sleep (concat (map (fun tr => tr ++ [EvSleep REQUEST_DELAY_ms]) segs)) = 3 * REQUEST_DELAY_ms.
Proof.
  set (label := fst (add_status_emoji "DELIVERED" "Abholbereit")).
  set (err := (WARNING_GLYPH ++ " Error: " ++
      "('Connection aborted.', ConnectionResetError(104, 'Connection reset by peer'))")%string).
  destruct (process_csv_file_pacing demo_env true [row_upper; row_no_secure; row_unreachable]
    demo_world
    [mkResult "050842" "541032" "Anna" "ZTVLYEQ5" "" "" label ALREADY_DOWNLOADED;
     mkResult "050842" "541032" "Anna" "" "" "" label "";
     mkResult "999999" "541032" "" "" "" "" err ""]
    (mkWorld demo_fs
      [EvStatusGet "541032-050842"; EvSleep REQUEST_DELAY_ms;
       EvStatusGet "541032-050842"; EvSleep REQUEST_DELAY_ms;
       EvStatusGet "541032-999999"; EvSleep REQUEST_DELAY_ms]) eq_refl)
    as [segs [L [_ [T S]]]].
  exists segs. auto.
Defined.


(** C5: the batch does raise for a per-order failure. A row whose output_path
    names an existing regular file, with downloads enabled and a delivered
    order, makes the already-downloaded pre-check call iterdir on a file; the
    NotADirectoryError it raises is caught nowhere, so process_csv_file stops
    after the first row and the second row is never fetched. *)
Theorem process_csv_file_raises_on_file_output_path : exists w',
  process_csv_file demo_env [row_file_output; row_unreachable] true demo_world =
    Raised (OSError "NotADirectoryError" "[Errno 20] Not a directory: '/home/user/notes.txt'") w' /\
  w_trace w' = [EvStatusGet "541032-050842"].
Proof. exists (mkWorld demo_fs [EvStatusGet "541032-050842"]). split; reflexivity. Qed.

(** A second way out of the batch: a malformed Content-Length header makes
    the int() conversion in download_file raise ValueError outside its try,
    so the next row is never processed either. *)
Lemma process_csv_file_raises_on_bad_content_length : exists w',
  process_csv_file badlen_env [row_bob; row_unreachable] true demo_world =
    Raised (ValueError "invalid literal for int() with base 10: 'abc'") w' /\
  w_trace w' = [EvStatusGet "541032-050842";
                EvDownloadGet (download_url "541032-050842" "ZTVLYEQ5")].
Proof.
  exists (mkWorld demo_fs [EvStatusGet "541032-050842";
                           EvDownloadGet (download_url "541032-050842" "ZTVLYEQ5")]).
  split; reflexivity.
Qed.

(** * Further properties of the code *)

Lemma add_status_emoji_loop_shape : forall items code text,
  ((exists key glyph, In (key, glyph) items /\
     add_status_emoji_loop items code text = (glyph ++ " " ++ text, []))%string) \/
  add_status_emoji_loop items code text = ((UNKNOWN_GLYPH ++ " " ++ text)%string, [unmapped_msg code]).
Proof.
  induction items as [| [k g] items IH]; intros code text; simpl; [right; reflexivity |].
  destruct (str_contains (str_lower k) (str_lower code)).
  - left. exists k, g. split; [left; reflexivity | reflexivity].
  - destruct (IH code text) as [[key [glyph [Hin Heq]]] | Heq]; [left | right; exact Heq].
    exists key, glyph. split; [right; exact Hin | exact Heq].
Qed.

(** X1: add_status_emoji always prefixes the given text with a glyph of STATUS_EMOJIS and a space, and prints nothing or exactly the unmapped-code line. *)
Theorem add_status_emoji_glyph_from_table : forall code text,
  exists key glyph, In (key, glyph) STATUS_EMOJIS /\
    fst (add_status_emoji code text) = (glyph ++ " " ++ text)%string /\
    (snd (add_status_emoji code text) = [] \/
     snd (add_status_emoji code text) = [unmapped_msg code]).
Proof.
  intros code text. unfold add_status_emoji.
  destruct (add_status_emoji_loop_shape STATUS_EMOJIS code text) as [[key [glyph [Hin ->]]] | ->].
  - exists key, glyph. simpl. auto.
  - exists "Unknown", UNKNOWN_GLYPH. simpl. split; [| auto].
    right; right; right; right; right; left. reflexivity.
Qed.

Lemma str_contains_hyphen_join : forall a b, str_contains "-" (a ++ "-" ++ b) = true.
Proof. intros a b. apply str_contains_app. exists a, b. reflexivity. Qed.

(** X5: the order id used for downloading always contains a hyphen: the CEWE order id if given, else the order number, prefixed with the shop number when it has no hyphen. *)
Theorem download_order_id_cases : forall cewe order shop,
  str_contains "-" (download_order_id cewe order shop) = true /\
  (cewe <> "" -> download_order_id cewe order shop =
                 if str_contains "-" cewe then cewe else (shop ++ "-" ++ cewe)%string) /\
  (cewe = "" -> download_order_id cewe order shop =
                if str_contains "-" order then order else (shop ++ "-" ++ order)%string).
Proof.
  intros cewe order shop. unfold download_order_id. repeat split.
  - destruct (str_contains "-" (if str_truthy cewe then cewe else order)) eqn:H;
      [exact H | apply str_contains_hyphen_join].
  - intro Hne. apply str_truthy_iff in Hne. rewrite Hne. reflexivity.
  - intros ->. reflexivity.
Qed.

Lemma str_replace_space_no_space : forall s,
  str_contains " " (str_replace_char " " "_" s) = false.
Proof.
  induction s as [| c s IH]; [reflexivity |].
  cbn [str_replace_char str_contains]. rewrite IH, orb_false_r.
  destruct (Ascii.eqb_spec c " ") as [-> | Hne]; [reflexivity |].
  cbn [prefix]. destruct (Ascii.ascii_dec " " c) as [<- | _]; [contradiction Hne; reflexivity | reflexivity].
Qed.

Lemma str_replace_space_slash : forall s,
  prefix "/" (str_replace_char " " "_" s) = prefix "/" s.
Proof.
  destruct s as [| c s]; [reflexivity |]. cbn [str_replace_char].
  destruct (Ascii.eqb_spec c " ") as [-> | Hne]; [reflexivity |].
  cbn [prefix]. destruct (Ascii.ascii_dec "/" c); [destruct s; reflexivity | reflexivity].
Qed.

Lemma prefix_slash_downloads : forall s, prefix "/" s = false ->
  path_join DOWNLOADS_DIR s = ("downloads/" ++ s)%string.
Proof. intros s H. unfold path_join. rewrite H. reflexivity. Qed.

(** X6: the output folder is the resolved output_path cell if given; else downloads/ followed by the identifier with spaces replaced by underscores (an absolute identifier escapes downloads/); else downloads itself. *)
Theorem resolve_output_path_cases : forall E csv_output_path ident,
  (csv_output_path <> "" -> resolve_output_path E csv_output_path ident = resolve E csv_output_path) /\
  (csv_output_path = "" -> ident <> "" -> prefix "/" ident = false ->
     resolve_output_path E csv_output_path ident =
       ("downloads/" ++ str_replace_char " " "_" ident)%string /\
     str_contains " " (resolve_output_path E csv_output_path ident) = false) /\
  (csv_output_path = "" -> prefix "/" ident = true ->
     resolve_output_path E csv_output_path ident = str_replace_char " " "_" ident) /\
  (csv_output_path = "" -> ident = "" -> resolve_output_path E csv_output_path ident = DOWNLOADS_DIR).
Proof.
  intros E csv ident. unfold resolve_output_path. split; [| split; [| split]].
  - intro H. apply str_truthy_iff in H. rewrite H. reflexivity.
  - intros -> Hi Hs. apply str_truthy_iff in Hi. simpl. rewrite Hi.
    rewrite prefix_slash_downloads by (rewrite str_replace_space_slash; exact Hs).
    split; [reflexivity |].
    cbn [append str_contains]. simpl prefix. apply str_replace_space_no_space.
  - intros -> Hs.
    assert (Hi : str_truthy ident = true) by (destruct ident; [discriminate | reflexivity]).
    replace (str_truthy "") with false by reflexivity. rewrite Hi.
    unfold path_join. rewrite str_replace_space_slash, Hs. reflexivity.
  - intros -> ->. reflexivity.
Qed.


(** X2: fetch_order_status never raises and leaves the filesystem alone: it issues one status request, may print, and returns a code that is empty or the summaryStateCode of the body. *)
Theorem fetch_order_status_never_raises : forall E order shop w,
  exists code status printed,
    fetch_order_status E order shop w =
      Ok (code, status)
         (mkWorld (w_fs w) (w_trace w ++ EvStatusGet (build_full_order_id order shop) :: map EvPrint printed)) /\
    (code = "" \/ exists data, status_api E (build_full_order_id order shop) = StatusObject data /\
                              dict_get data "summaryStateCode" (JStr "") = JStr code).
Proof.
  intros E order shop w.
  unfold fetch_order_status, try_catch, bind, emit, raise, ret, emit_prints. simpl.
  destruct (status_api E (build_full_order_id order shop)) as [e | ty | data] eqn:Hapi; simpl.
  - eexists _, _, []. split; [reflexivity | left; reflexivity].
  - eexists _, _, []. split; [reflexivity | left; reflexivity].
  - destruct (dict_get data "summaryStateCode" (JStr "")) as [code | ty r t] eqn:Hc; simpl.
    + destruct (add_status_emoji code _) as [fs ps]. simpl.
      exists code, fs, ps. rewrite <- app_assoc. split; [reflexivity |].
      right. exists data. auto.
    + eexists _, _, []. split; [reflexivity | left; reflexivity].
Qed.

(** X3: when the body has no truthy summaryStateText, the label uses the code as text, or Unknown when the code is empty; an empty code is labelled with the question-mark glyph and reported as unmapped. *)
Theorem fetch_order_status_text_fallback : forall E order shop w data code,
  status_api E (build_full_order_id order shop) = StatusObject data ->
  dict_get data "summaryStateCode" (JStr "") = JStr code ->
  jtruthy (dict_get data "summaryStateText" (JStr "")) = false ->
  let text := if str_truthy code then code else "Unknown" in
  fetch_order_status E order shop w =
    Ok (code, fst (add_status_emoji code text))
       (mkWorld (w_fs w) (w_trace w ++ EvStatusGet (build_full_order_id order shop)
                                    :: map EvPrint (snd (add_status_emoji code text)))) /\
  (code = "" -> add_status_emoji code text = ((UNKNOWN_GLYPH ++ " Unknown")%string, [unmapped_msg ""])).
Proof.
  intros E order shop w data code Hapi Hc Ht text. split.
  - unfold fetch_order_status, try_catch, bind, emit, raise, ret, emit_prints. simpl.
    rewrite Hapi, Hc, Ht. simpl. subst text. unfold str_truthy.
    destruct (String.eqb code ""); simpl;
      destruct (add_status_emoji _ _) as [fs ps]; simpl; rewrite <- app_assoc; reflexivity.
  - intros ->. reflexivity.
Qed.

(** X4: a body that is not a JSON object, or a non-string summaryStateCode, ends in the error label with the AttributeError message and an empty code, after the single request and without printing. *)
Theorem fetch_order_status_malformed_body : forall E order shop w,
  let full_order_id := build_full_order_id order shop in
  let w' := mkWorld (w_fs w) (w_trace w ++ [EvStatusGet full_order_id]) in
  (forall ty, status_api E full_order_id = StatusNonObject ty ->
     fetch_order_status E order shop w =
       Ok ("", (WARNING_GLYPH ++ " Error: '" ++ ty ++ "' object has no attribute 'get'")%string) w') /\
  (forall data ty repr truthy,
     status_api E full_order_id = StatusObject data ->
     dict_get data "summaryStateCode" (JStr "") = JOther ty repr truthy ->
     fetch_order_status E order shop w =
       Ok ("", (WARNING_GLYPH ++ " Error: '" ++ ty ++ "' object has no attribute 'lower'")%string) w').
Proof.
  intros E order shop w full_order_id w'. subst full_order_id w'. split.
  - intros ty Hapi. unfold fetch_order_status, try_catch, bind, emit, raise, ret.
    simpl. rewrite Hapi. reflexivity.
  - intros data ty repr truthy Hapi Hc. unfold fetch_order_status, try_catch, bind, emit, raise, ret.
    simpl. rewrite Hapi, Hc. reflexivity.
Qed.


Lemma process_row_record E en r w rec w' :
  process_row E en r w = Ok rec w' -> record_of_row r rec.
Proof.
  intro Hrun. unfold process_row, row_strip_required in Hrun.
  destruct (row_lookup r "order_number") as [[order |] |] eqn:H1; [| discriminate | discriminate].
  destruct (row_lookup r "shop_number") as [[shop |] |] eqn:H2; [| discriminate | discriminate].
  cbv [bind ret] in Hrun.
  destruct (fetch_order_status E (str_strip order) (str_strip shop) w) as [[code status] w1 | e w1];
    [| discriminate].
  unfold sleep_request_delay, emit in Hrun.
  exists order, shop. split; [exact H1 |]. split; [exact H2 |].
  destruct (should_download _ _ _).
  - destruct (fetch_and_unpack E _ _ _ _ _ _ w1) as [[d |] w2 | e w2];
      [| | discriminate]; injection Hrun as <- _; repeat split.
  - injection Hrun as <- _; repeat split.
Qed.

(** X9: a completed batch has one result per input row, in order, each carrying the stripped order, shop, identifier, cewe_order_id and output_path cells and the stripped, upper-cased secure_id. *)
Theorem process_csv_file_records_rows : forall E en rows w results w',
  process_csv_file E rows en w = Ok results w' ->
  Forall2 record_of_row rows results.
Proof.
  intros E en rows. unfold process_csv_file.
  assert (G : forall acc w results w', process_rows E en acc rows w = Ok results w' ->
            exists post, results = acc ++ post /\ Forall2 record_of_row rows post).
  { induction rows as [| r rows IH]; intros acc w results w' Hrun.
    - simpl in Hrun. injection Hrun as <- _. exists []. rewrite app_nil_r. auto.
    - simpl in Hrun. unfold bind in Hrun.
      destruct (process_row E en r w) as [rec w1 | e w1] eqn:Hr; [| discriminate].
      destruct (IH _ _ _ _ Hrun) as [post [-> Hpost]].
      exists (rec :: post). rewrite <- app_assoc. split; [reflexivity |].
      constructor; [exact (process_row_record _ _ _ _ _ _ Hr) | exact Hpost]. }
  intros w results w' Hrun. destruct (G [] w results w' Hrun) as [post [-> H]]. exact H.
Qed.

Lemma fetch_order_status_status_only E o s w : exists code status tr,
  fetch_order_status E o s w = Ok (code, status) (mkWorld (w_fs w) (w_trace w ++ tr)) /\
  Forall status_only tr.
Proof.
  destruct (fetch_order_status_total E o s w) as [code [status [ps H]]].
  exists code, status, (EvStatusGet (build_full_order_id o s) :: map EvPrint ps).
  split; [exact H |]. constructor; [exact I |].
  apply Forall_forall. intros x Hx. apply in_map_iff in Hx. destruct Hx as [l [<- _]]. exact I.
Qed.

Lemma process_row_disabled E r w order shop :
  row_lookup r "order_number" = Some (Some order) ->
  row_lookup r "shop_number" = Some (Some shop) ->
  exists rec tr, process_row E false r w = Ok rec (mkWorld (w_fs w) (w_trace w ++ tr)) /\
    r_download_status rec = "" /\ Forall status_only tr.
Proof.
  intros H1 H2. unfold process_row, row_strip_required. rewrite H1, H2.
  cbv [bind ret].
  destruct (fetch_order_status_status_only E (str_strip order) (str_strip shop) w)
    as [code [status [tr [Hf Htr]]]].
  rewrite Hf. unfold should_download. simpl andb. cbv iota.
  unfold sleep_request_delay, emit. cbn [w_fs w_trace].
  eexists _, (tr ++ [EvSleep REQUEST_DELAY_ms]). split; [rewrite app_assoc; reflexivity |].
  split; [reflexivity |]. apply Forall_app. split; [exact Htr | constructor; [exact I | constructor]].
Qed.

(** X10: without the download option, a batch of rows with order and shop cells always completes, records an empty download status for each row, never touches the filesystem and only queries statuses, prints and pauses. *)
Theorem download_disabled_batch : forall E rows w,
  (forall r, In r rows -> exists order shop,
     row_lookup r "order_number" = Some (Some order) /\ row_lookup r "shop_number" = Some (Some shop)) ->
  exists results tr,
    process_csv_file E rows false w = Ok results (mkWorld (w_fs w) (w_trace w ++ tr)) /\
    length results = length rows /\
    Forall (fun rec => r_download_status rec = "") results /\
    Forall status_only tr.
Proof.
  intros E rows. unfold process_csv_file.
  assert (G : forall acc w,
    (forall r, In r rows -> exists order shop,
       row_lookup r "order_number" = Some (Some order) /\ row_lookup r "shop_number" = Some (Some shop)) ->
    Forall (fun rec => r_download_status rec = "") acc ->
    exists results tr,
      process_rows E false acc rows w = Ok results (mkWorld (w_fs w) (w_trace w ++ tr)) /\
      length results = length acc + length rows /\
      Forall (fun rec => r_download_status rec = "") results /\ Forall status_only tr).
  { induction rows as [| r rows IH]; intros acc w Hrows Hacc.
    - exists acc, []. simpl. rewrite app_nil_r. destruct w. repeat split; auto.
    - destruct (Hrows r (or_introl eq_refl)) as [order [shop [H1 H2]]].
      destruct (process_row_disabled E r w order shop H1 H2) as [rec [tr1 [Hr [Hd Htr1]]]].
      destruct (IH (acc ++ [rec]) (mkWorld (w_fs w) (w_trace w ++ tr1)))
        as [results [tr2 [Hrun [Hlen [Hall Htr2]]]]].
      + intros r' Hr'. apply Hrows. right. exact Hr'.
      + apply Forall_app. split; [exact Hacc | constructor; [exact Hd | constructor]].
      + exists results, (tr1 ++ tr2). simpl. unfold bind. rewrite Hr, Hrun. simpl.
        rewrite app_assoc. repeat split; auto.
        * rewrite Hlen, length_app. simpl. lia.
        * apply Forall_app. auto. }
  intros w Hrows. destruct (G [] w Hrows (Forall_nil _)) as [results [tr [H [L [A T]]]]].
  exists results, tr. simpl in L. auto.
Qed.





Ltac content_length cl Hcl z Hz :=
  let Hint := fresh "Hint" in
  assert (Hint : exists z, match cl with
                           | None => ret 0%Z
                           | Some s => match parse_py_int s with
                                       | Some z => ret z
                                       | None => raise (ValueError ("invalid literal for int() with base 10: '" ++ s ++ "'"))
                                       end
                           end = ret z);
  [ destruct cl as [s |]; [| exists 0%Z; reflexivity];
    destruct (parse_py_int s) as [z0 |] eqn:Hp; [exists z0; reflexivity |];
    exfalso; exact (Hcl s eq_refl Hp)
  | destruct Hint as [z Hz] ].







(** X16: a download that breaks while writing is recorded as failed, but leaves the partial archive in the new folder, so a second attempt reports Already downloaded and does nothing. *)
Theorem failed_download_blocks_retry : forall E ident secure_id cewe_order_id order shop
    csv_output_path cl e w,
  let output_path := resolve_output_path E csv_output_path ident in
  let order_id := download_order_id cewe_order_id order shop in
  w_fs w output_path = Missing ->
  mkdir_error E output_path = None ->
  download_api E (download_url order_id secure_id) = DownloadStream cl (StreamBroken e) ->
  (forall s, cl = Some s -> parse_py_int s <> None) ->
  open_error E (path_join output_path ("photos_" ++ order_id ++ ".zip")) = None ->
  is_ioerror e = true ->
  exists w1,
    fetch_and_unpack E ident secure_id cewe_order_id order shop csv_output_path w =
      Ok (Some DOWNLOAD_FAILED) w1 /\
    fetch_and_unpack E ident secure_id cewe_order_id order shop csv_output_path w1 =
      Ok (Some ALREADY_DOWNLOADED) w1.
Proof.
  intros E ident secure_id cewe_order_id order shop csv cl e w output_path order_id
    Hmiss Hmk Hapi Hcl Hopen Hio.
  subst output_path order_id. destruct w as [fs0 tr0]. simpl in Hmiss.
  destruct cl as [s |];
    [destruct (parse_py_int s) as [z |] eqn:Hp; [| exfalso; exact (Hcl s eq_refl Hp)] |];
    destruct e; try discriminate Hio;
    (eexists; split;
     [ cbv [fetch_and_unpack already_downloaded mkdir_p download_photos download_file
            write_and_extract try_catch bind emit ret raise get_entry set_entry add_names
            remove_name w_fs w_trace];
       repeat (cbv beta iota zeta;
               first [ rewrite Hmiss | rewrite Hmk | rewrite Hapi | rewrite Hopen
                     | rewrite Hp | rewrite String.eqb_refl | progress cbn [negb] ]);
       reflexivity
     | cbv [fetch_and_unpack already_downloaded bind ret get_entry w_fs];
       rewrite String.eqb_refl; reflexivity ]).
Qed.



(** X8: a row without an order_number or shop_number column, or with an empty order_number cell, makes process_csv_file raise before any request, with the world unchanged. *)
Theorem process_csv_file_missing_column : forall E en r rest w,
  (row_lookup r "order_number" = None ->
     process_csv_file E (r :: rest) en w = Raised (KeyError "'order_number'") w) /\
  (row_lookup r "order_number" = Some None ->
     process_csv_file E (r :: rest) en w =
       Raised (AttributeError "'NoneType' object has no attribute 'strip'") w) /\
  (forall order, row_lookup r "order_number" = Some (Some order) ->
     row_lookup r "shop_number" = None ->
     process_csv_file E (r :: rest) en w = Raised (KeyError "'shop_number'") w).
Proof.
  intros E en r rest w. unfold process_csv_file. simpl process_rows.
  unfold process_row, row_strip_required. cbv [bind ret raise].
  split; [| split].
  - intro H. rewrite H. reflexivity.
  - intro H. rewrite H. reflexivity.
  - intros order H1 H2. rewrite H1, H2. reflexivity.
Qed.


Lemma string_leb_cons x a y b :
  String.leb (String x a) (String y b) = true <->
  (N_of_ascii x < N_of_ascii y)%N \/ (x = y /\ String.leb a b = true).
Proof.
  unfold String.leb. cbn [String.compare]. unfold Ascii.compare.
  destruct (N.compare_spec (N_of_ascii x) (N_of_ascii y)) as [H | H | H].
  - assert (x = y) by (rewrite <- (ascii_N_embedding x), <- (ascii_N_embedding y), H; reflexivity).
    subst y. split; [intro; right; split; [reflexivity | exact H0] | intros [Hl | [_ Hb]]; [lia | exact Hb]].
  - split; [intros _; left; exact H | reflexivity].
  - split; [discriminate | intros [Hl | [-> _]]; lia].
Qed.

Lemma string_leb_trans : forall a b c,
  String.leb a b = true -> String.leb b c = true -> String.leb a c = true.
Proof.
  induction a as [| x a IH]; intros b c Hab Hbc.
  - destruct c; reflexivity.
  - destruct b as [| y b]; [discriminate |].
    destruct c as [| z c]; [discriminate |].
    apply string_leb_cons in Hab, Hbc. apply string_leb_cons.
    destruct Hab as [Hxy | [-> Hab]], Hbc as [Hyz | [<- Hbc]].
    + left. lia.
    + left. exact Hxy.
    + left. exact Hyz.
    + right. split; [reflexivity | exact (IH _ _ Hab Hbc)].
Qed.

Lemma string_leb_false x y : String.leb x y = false -> String.leb y x = true.
Proof. intro H. destruct (String.leb_total x y) as [H' | H']; [congruence | exact H']. Qed.

Lemma insert_sorted_In x l m : In m (insert_sorted x l) <-> x = m \/ In m l.
Proof.
  induction l as [| y l IH]; simpl; [tauto |].
  destruct (String.leb x y); simpl; [tauto | rewrite IH; tauto].
Qed.

Lemma sort_strings_In l m : In m (sort_strings l) <-> In m l.
Proof.
  induction l as [| x l IH]; simpl; [tauto |]. rewrite insert_sorted_In, IH. intuition.
Qed.

Lemma insert_sorted_sorted x l : StronglySorted (fun a b => String.leb a b = true) l -> StronglySorted (fun a b => String.leb a b = true) (insert_sorted x l).
Proof.
  induction 1 as [| y l Hs IH Hall]; simpl.
  - repeat constructor.
  - destruct (String.leb x y) eqn:Hxy.
    + constructor; [constructor; assumption |].
      constructor; [exact Hxy |]. eapply Forall_impl; [| exact Hall].
      intros a Ha. exact (string_leb_trans _ _ _ Hxy Ha).
    + constructor; [exact IH |]. apply Forall_forall. intros a Ha.
      apply insert_sorted_In in Ha. destruct Ha as [<- | Ha].
      * apply string_leb_false. exact Hxy.
      * rewrite Forall_forall in Hall. apply Hall, Ha.
Qed.

Lemma sort_strings_sorted l : StronglySorted (fun a b => String.leb a b = true) (sort_strings l).
Proof. induction l; simpl; [constructor | apply insert_sorted_sorted; assumption]. Qed.

Lemma filter_strongly_sorted {A} (R : A -> A -> Prop) f l :
  StronglySorted R l -> StronglySorted R (filter f l).
Proof.
  induction 1 as [| a l Hs IH Hall]; simpl; [constructor |].
  destruct (f a); [| exact IH]. constructor; [exact IH |].
  rewrite Forall_forall in Hall |- *. intros x Hx. apply filter_In in Hx. apply Hall, Hx.
Qed.

(** X17: main processes exactly the listed names ending in .csv (case-insensitively) other than orders_template.csv (case-insensitively), in ascending order. *)
Theorem select_csv_files_spec : forall listing,
  (forall f, In f (select_csv_files listing) <->
     In f listing /\ str_endswith ".csv" (str_lower f) = true /\
     str_lower f <> "orders_template.csv") /\
  StronglySorted (fun a b => String.leb a b = true) (select_csv_files listing).
Proof.
  intro listing. split.
  - intro f. unfold select_csv_files, is_order_csv.
    rewrite filter_In, sort_strings_In, andb_true_iff, negb_true_iff, String.eqb_neq. tauto.
  - apply filter_strongly_sorted, sort_strings_sorted.
Qed.

(** X18: every summary table starts with the Order Number, Shop Number and Identifier columns, has a Status column, has a Download column exactly when some row has a download status, and each row holds the value of each column in column order. *)
Theorem summary_table_aligned : forall results,
  firstn 3 (summary_columns results) = ["Order Number"; "Shop Number"; "Identifier"] /\
  In "Status" (summary_columns results) /\
  (In "Download" (summary_columns results) <->
     exists r, In r results /\ r_download_status r <> "") /\
  forall r, summary_row results r = map (fun c => column_field c r) (summary_columns results).
Proof.
  intro results. unfold summary_columns, summary_row.
  split; [| split; [| split]].
  - destruct (any_truthy r_secure_id results), (any_truthy r_cewe_order_id results),
      (any_truthy r_output_path results), (any_truthy r_download_status results); reflexivity.
  - destruct (any_truthy r_secure_id results), (any_truthy r_cewe_order_id results),
      (any_truthy r_output_path results), (any_truthy r_download_status results);
      simpl; tauto.
  - assert (Hany : any_truthy r_download_status results = true <->
                   exists r, In r results /\ r_download_status r <> "").
    { unfold any_truthy. rewrite existsb_exists.
      split; intros [r [Hin Ht]]; exists r; split; try exact Hin; apply str_truthy_iff; exact Ht. }
    rewrite <- Hany.
    destruct (any_truthy r_secure_id results), (any_truthy r_cewe_order_id results),
      (any_truthy r_output_path results), (any_truthy r_download_status results);
      simpl; intuition discriminate.
  - intro r.
    destruct (any_truthy r_secure_id results), (any_truthy r_cewe_order_id results),
      (any_truthy r_output_path results), (any_truthy r_download_status results); reflexivity.
Qed.


Lemma summary_columns_download results :
  In "Download" (summary_columns results) <-> any_truthy r_download_status results = true.
Proof.
  unfold summary_columns.
  destruct (any_truthy r_secure_id results), (any_truthy r_cewe_order_id results),
    (any_truthy r_output_path results), (any_truthy r_download_status results);
    simpl; intuition discriminate.
Qed.

Lemma print_tables_result ar w tables w' :
  print_tables ar w = Ok tables w' ->
  tables = map (fun p => (fst p, summary_table (snd p))) ar.
Proof.
  revert w tables w'. induction ar as [| [f res] ar IH]; intros w tables w' H.
  - injection H as <- _. reflexivity.
  - simpl in H. unfold bind, emit, ret in H.
    destruct (print_tables ar _) as [t w1 | e w1] eqn:Ht; [| discriminate].
    injection H as <- _. simpl. f_equal. exact (IH _ _ _ Ht).
Qed.

Lemma print_tables_fs ar : forall w tables w',
  print_tables ar w = Ok tables w' -> w_fs w' = w_fs w.
Proof.
  induction ar as [| [f res] ar IH]; intros w tables w' H.
  - injection H as _ <-. reflexivity.
  - simpl in H. unfold bind, emit, ret in H.
    destruct (print_tables ar _) as [t w1 | e w1] eqn:Ht; [| discriminate].
    injection H as _ <-. rewrite (IH _ _ _ Ht). reflexivity.
Qed.

Lemma main_files_names E read_csv dl files : forall acc w res w',
  main_files E read_csv dl files acc w = Ok res w' ->
  map fst res = map fst acc ++ filter is_order_csv files.
Proof.
  induction files as [| f files IH]; intros acc w res w' H.
  - injection H as <- _. rewrite app_nil_r. reflexivity.
  - simpl in H. unfold is_order_csv. simpl filter.
    destruct (str_endswith ".csv" (str_lower f)); simpl in H |- *; [| exact (IH _ _ _ _ H)].
    destruct (String.eqb (str_lower f) "orders_template.csv"); simpl in H |- *;
      [exact (IH _ _ _ _ H) |].
    unfold bind at 1, emit at 1 in H. unfold bind at 1 in H.
    destruct (open_csv (path_join ORDERS_DIR f) _) as [u w1 | e w1]; [| discriminate].
    unfold bind at 1 in H.
    destruct (process_csv_file E (read_csv (path_join ORDERS_DIR f)) dl w1) as [fr w2 | e w2];
      [| discriminate].
    rewrite (IH _ _ _ _ H), map_app, <- app_assoc. reflexivity.
Qed.

Lemma process_row_disabled_ok E r w rec w' :
  process_row E false r w = Ok rec w' -> r_download_status rec = "" /\ w_fs w' = w_fs w.
Proof.
  intro Hrun. unfold process_row, row_strip_required in Hrun.
  destruct (row_lookup r "order_number") as [[order |] |]; [| discriminate | discriminate].
  destruct (row_lookup r "shop_number") as [[shop |] |]; [| discriminate | discriminate].
  cbv [bind ret] in Hrun.
  destruct (fetch_order_status_total E (str_strip order) (str_strip shop) w) as [code [status [ps Hf]]].
  rewrite Hf in Hrun. unfold should_download in Hrun. simpl andb in Hrun.
  unfold sleep_request_delay, emit in Hrun. injection Hrun as <- <-. split; reflexivity.
Qed.

Lemma process_rows_disabled_ok E rows : forall acc w res w',
  process_rows E false acc rows w = Ok res w' ->
  Forall (fun rec => r_download_status rec = "") acc ->
  Forall (fun rec => r_download_status rec = "") res /\ w_fs w' = w_fs w.
Proof.
  induction rows as [| r rows IH]; intros acc w res w' H Hacc.
  - injection H as <- <-. auto.
  - simpl in H. unfold bind in H.
    destruct (process_row E false r w) as [rec w1 | e w1] eqn:Hr; [| discriminate].
    destruct (process_row_disabled_ok _ _ _ _ _ Hr) as [Hd Hfs].
    destruct (IH _ _ _ _ H) as [Hres Hw]; [apply Forall_app; auto |].
    split; [exact Hres | congruence].
Qed.

Lemma main_files_disabled E read_csv files : forall acc w res w',
  main_files E read_csv false files acc w = Ok res w' ->
  Forall (fun p => Forall (fun rec => r_download_status rec = "") (snd p)) acc ->
  Forall (fun p => Forall (fun rec => r_download_status rec = "") (snd p)) res /\ w_fs w' = w_fs w.
Proof.
  induction files as [| f files IH]; intros acc w res w' H Hacc.
  - injection H as <- <-. auto.
  - simpl in H.
    destruct (negb (str_endswith ".csv" (str_lower f))); [exact (IH _ _ _ _ H Hacc) |].
    destruct (String.eqb (str_lower f) "orders_template.csv"); [exact (IH _ _ _ _ H Hacc) |].
    unfold bind at 1, emit at 1 in H. unfold bind at 1 in H.
    destruct (open_csv (path_join ORDERS_DIR f) _) as [u w1 | e w1] eqn:Ho; [| discriminate].
    assert (Hw1 : w_fs w1 = w_fs w).
    { unfold open_csv, bind, get_entry, ret, raise in Ho. simpl in Ho.
      destruct (w_fs w _); injection Ho as _ <- || discriminate Ho; reflexivity. }
    unfold bind at 1 in H.
    destruct (process_csv_file E (read_csv (path_join ORDERS_DIR f)) false w1) as [fr w2 | e w2] eqn:Hp;
      [| discriminate].
    destruct (process_rows_disabled_ok _ _ _ _ _ _ Hp (Forall_nil _)) as [Hfr Hw2].
    destruct (IH _ _ _ _ H) as [Hres Hw]; [apply Forall_app; split; [exact Hacc | constructor; [exact Hfr | constructor]] |].
    split; [exact Hres | congruence].
Qed.

(** X19: without an orders folder main prints one line and stops, touching nothing. *)
Theorem main_orders_missing : forall E read_csv download w,
  w_fs w ORDERS_DIR = Missing ->
  main E read_csv download w =
    Ok [] (mkWorld (w_fs w) (w_trace w ++ [EvPrint ("‚ùå Folder 'orders' not found.")])).
Proof.
  intros E read_csv download w H. unfold main, bind, get_entry. rewrite H.
  unfold emit, ret. reflexivity.
Qed.

(** X20: with the download option, when the downloads folder is missing and cannot be created, main prints one line and stops before reading any CSV file. *)
Theorem main_downloads_folder_failure : forall E read_csv e w,
  w_fs w ORDERS_DIR <> Missing ->
  w_fs w DOWNLOADS_DIR = Missing ->
  mkdir_error E DOWNLOADS_DIR = Some e ->
  main E read_csv true w =
    Ok [] (mkWorld (w_fs w) (w_trace w ++
      [EvPrint ("‚ùå Could not create download folder: downloads. Details: " ++ exn_str e)])).
Proof.
  intros E read_csv e w Ho Hd Hmk. destruct w as [fs0 tr0]. simpl in Ho, Hd.
  unfold main. unfold bind at 1, get_entry at 1. cbn [w_fs].
  destruct (fs0 ORDERS_DIR) eqn:HO; [contradiction Ho; reflexivity | |];
    cbv [bind get_entry try_catch mkdir_p ret raise emit w_fs w_trace];
    repeat (first [rewrite Hd | rewrite Hmk]; cbv beta iota zeta); cbn [negb]; reflexivity.
Qed.

(** X21: a completed run of main produces one summary table per selected CSV file, in ascending file-name order. *)
Theorem main_processes_selected_files : forall E read_csv download w names tables w',
  w_fs w ORDERS_DIR = Directory names ->
  (download = false \/ w_fs w DOWNLOADS_DIR <> Missing \/ mkdir_error E DOWNLOADS_DIR = None) ->
  main E read_csv download w = Ok tables w' ->
  map fst tables = select_csv_files names.
Proof.
  intros E read_csv download w names tables w' Ho Hdl H.
  destruct w as [fs0 tr0]. simpl in Ho, Hdl.
  unfold main in H. unfold bind at 1, get_entry at 1 in H. cbn [w_fs] in H. rewrite Ho in H.
  assert (Hok : exists w1, (if download then
               d <- get_entry DOWNLOADS_DIR ;;
               match d with
               | Missing =>
                   try_catch
                     (mkdir_p E DOWNLOADS_DIR ;;;
                      emit (EvPrint ("üìÅ Created download folder: " ++ DOWNLOADS_DIR)) ;;;
                      ret true)
                     (fun e => Some (emit (EvPrint ("‚ùå Could not create download folder: " ++
                                                     DOWNLOADS_DIR ++ ". Details: " ++ exn_str e)) ;;;
                                     ret false))
               | _ => ret true
               end
             else ret true) (mkWorld fs0 tr0) = Ok true w1 /\ w_fs w1 ORDERS_DIR = Directory names).
  { destruct download; [| eexists; split; [reflexivity | exact Ho]].
    cbv [bind get_entry try_catch mkdir_p ret raise emit set_entry w_fs w_trace].
    destruct (fs0 DOWNLOADS_DIR) eqn:Hd.
    - destruct Hdl as [Hf | [Hf | Hf]]; [discriminate | contradiction |].
      repeat (rewrite Hd; cbv beta iota zeta). rewrite Hf.
      eexists. split; [reflexivity |]. cbv beta iota zeta delta [w_fs].
      replace (String.eqb ORDERS_DIR DOWNLOADS_DIR) with false by reflexivity. exact Ho.
    - eexists. split; [reflexivity | exact Ho].
    - eexists. split; [reflexivity | exact Ho]. }
  destruct Hok as [w1 [Hrun1 Hw1]].
  unfold bind at 1 in H. rewrite Hrun1 in H. cbn [negb] in H. cbv beta iota in H.
  unfold bind at 1, listdir in H. cbv [bind get_entry] in H. rewrite Hw1 in H.
  unfold ret at 1 in H. cbv beta iota in H.
  destruct (main_files E read_csv download (sort_strings names) [] w1) as [ar w2 | e w2] eqn:Hm; [| discriminate].
  unfold emit at 1 in H. apply print_tables_result in H. subst tables.
  rewrite map_map. change (map fst ar = select_csv_files names).
  rewrite (main_files_names _ _ _ _ _ _ _ _ Hm). reflexivity.
Qed.

(** X22: a completed run of main without the download option leaves the filesystem unchanged and no summary table has a Download column. *)
Theorem main_without_download : forall E read_csv w tables w',
  main E read_csv false w = Ok tables w' ->
  w_fs w' = w_fs w /\ Forall (fun t => ~ In "Download" (fst (snd t))) tables.
Proof.
  intros E read_csv w tables w' H. destruct w as [fs0 tr0]. cbn [w_fs].
  unfold main in H. unfold bind at 1, get_entry at 1 in H. cbn [w_fs] in H.
  destruct (fs0 ORDERS_DIR) as [| | names] eqn:Ho.
  - unfold emit, bind, ret in H. injection H as <- <-. auto.
  - cbv [bind ret listdir get_entry raise w_fs negb] in H. rewrite Ho in H. discriminate.
  - unfold bind at 1, ret at 1 in H. cbn [negb] in H. cbv beta iota in H.
    unfold bind at 1, listdir in H. cbv [bind get_entry] in H. cbn [w_fs] in H. rewrite Ho in H.
    unfold ret at 1 in H. cbv beta iota in H.
    destruct (main_files E read_csv false (sort_strings names) [] (mkWorld fs0 tr0)) as [ar w2 | e w2] eqn:Hm; [| discriminate].
    destruct (main_files_disabled _ _ _ _ _ _ _ Hm (Forall_nil _)) as [Har Hw2].
    unfold emit at 1 in H.
    pose proof (print_tables_result _ _ _ _ H) as Ht.
    split; [rewrite (print_tables_fs _ _ _ _ H); simpl; exact Hw2 |].
    subst tables. apply Forall_forall. intros x Hx. apply in_map_iff in Hx.
    destruct Hx as [[f res] [<- Hin]]. simpl.
    rewrite summary_columns_download. rewrite Forall_forall in Har.
    specialize (Har _ Hin). simpl in Har. unfold any_truthy.
    intro Hex. apply existsb_exists in Hex. destruct Hex as [rec [Hrec Ht]].
    rewrite Forall_forall in Har. rewrite (Har rec Hrec) in Ht. discriminate.
Qed.

(** ** Witnesses of the further properties *)

Lemma download_order_id_cases_witness :
  download_order_id "" "050842" "541032" = "541032-050842".
Proof.
  rewrite (proj2 (proj2 (download_order_id_cases "" "050842" "541032")) eq_refl).
  reflexivity.
Defined.

Lemma resolve_output_path_cases_witness :
  resolve_output_path demo_env "" "Carla Maria" = "downloads/Carla_Maria".
Proof.
  destruct (proj1 (proj2 (resolve_output_path_cases demo_env "" "Carla Maria"))
              eq_refl ltac:(discriminate) eq_refl) as [H _].
  exact H.
Defined.

Lemma fetch_order_status_text_fallback_witness :
  fetch_order_status terse_env "050842" "541032" demo_world =
    Ok ("DELIVERED", fst (add_status_emoji "DELIVERED" "DELIVERED"))
       (mkWorld demo_fs (EvStatusGet "541032-050842"
                         :: map EvPrint (snd (add_status_emoji "DELIVERED" "DELIVERED")))).
Proof.
  pose proof (fetch_order_status_text_fallback terse_env "050842" "541032" demo_world
                [("summaryStateCode", JStr "DELIVERED")] "DELIVERED" eq_refl eq_refl eq_refl) as H.
  cbv zeta in H. exact (proj1 H).
Defined.

Lemma fetch_order_status_malformed_body_witness :
  fetch_order_status terse_env "000001" "541032" demo_world =
    Ok ("", (WARNING_GLYPH ++ " Error: 'list' object has no attribute 'get'")%string)
       (mkWorld demo_fs [EvStatusGet "541032-000001"]) /\
  fetch_order_status terse_env "000002" "541032" demo_world =
    Ok ("", (WARNING_GLYPH ++ " Error: 'int' object has no attribute 'lower'")%string)
       (mkWorld demo_fs [EvStatusGet "541032-000002"]).
Proof.
  pose proof (fetch_order_status_malformed_body terse_env "000001" "541032" demo_world) as H1.
  pose proof (fetch_order_status_malformed_body terse_env "000002" "541032" demo_world) as H2.
  cbv zeta in H1, H2. split.
  - exact (proj1 H1 "list" eq_refl).
  - exact (proj2 H2 [("summaryStateCode", JOther "int" "7" true)] "int" "7" true eq_refl eq_refl).
Defined.


Lemma process_csv_file_missing_column_witness :
  process_csv_file demo_env [row_no_order; row_upper] true demo_world =
    Raised (KeyError "'order_number'") demo_world.
Proof.
  exact (proj1 (process_csv_file_missing_column demo_env true row_no_order [row_upper] demo_world)
               eq_refl).
Defined.

Lemma process_csv_file_records_rows_witness : exists results w',
  process_csv_file demo_env [row_upper; row_unreachable] true demo_world = Ok results w' /\
  Forall2 record_of_row [row_upper; row_unreachable] results.
Proof.
  eexists. eexists. split; [reflexivity |].
  eapply (process_csv_file_records_rows demo_env true _ demo_world). reflexivity.
Defined.

Lemma download_disabled_batch_witness : exists results tr,
  process_csv_file demo_env [row_upper; row_carla; row_unreachable] false demo_world =
    Ok results (mkWorld demo_fs tr) /\
  Forall (fun rec => r_download_status rec = "") results /\ Forall status_only tr.
Proof.
  destruct (download_disabled_batch demo_env [row_upper; row_carla; row_unreachable] demo_world)
    as [results [tr [H [_ [Hd Ht]]]]].
  - intros r Hr. simpl in Hr.
    destruct Hr as [<- | [<- | [<- | []]]]; eexists; eexists; split; reflexivity.
  - exists results, tr. auto.
Defined.


Lemma content_length_4 : forall s, Some "4" = Some s -> parse_py_int s <> None.
Proof. intros s Hs. injection Hs as <-. discriminate. Qed.





Lemma failed_download_blocks_retry_witness : exists w1,
  fetch_and_unpack broken_env "Carla Maria" "ZTVLYEQ5" "" "050842" "541032" "" demo_world =
    Ok (Some DOWNLOAD_FAILED) w1 /\
  fetch_and_unpack broken_env "Carla Maria" "ZTVLYEQ5" "" "050842" "541032" "" w1 =
    Ok (Some ALREADY_DOWNLOADED) w1.
Proof.
  exact (failed_download_blocks_retry broken_env "Carla Maria" "ZTVLYEQ5" "" "050842" "541032" ""
           (Some "4") (RequestException "Connection broken: IncompleteRead") demo_world
           eq_refl eq_refl eq_refl content_length_4 eq_refl eq_refl).
Defined.

Lemma main_orders_missing_witness :
  main demo_env orders_csv true demo_world =
    Ok [] (mkWorld demo_fs [EvPrint ("‚ùå Folder 'orders' not found.")]).
Proof. exact (main_orders_missing demo_env orders_csv true demo_world eq_refl). Defined.

Lemma main_downloads_folder_failure_witness :
  main readonly_env orders_csv true orders_world =
    Ok [] (mkWorld orders_fs
      [EvPrint ("‚ùå Could not create download folder: downloads. Details: " ++
                exn_str (permission_denied "downloads"))]).
Proof.
  exact (main_downloads_folder_failure readonly_env orders_csv (permission_denied "downloads")
           orders_world ltac:(discriminate) eq_refl eq_refl).
Defined.

Lemma main_processes_selected_files_witness : exists tables w',
  main demo_env orders_csv false orders_world = Ok tables w' /\
  map fst tables = ["A.CSV"; "b.csv"].
Proof.
  eexists. eexists. split; [reflexivity |].
  refine (eq_trans (main_processes_selected_files demo_env orders_csv false orders_world
                      ["b.csv"; "orders_template.csv"; "notes.txt"; "A.CSV"; "Orders_Template.CSV"]
                      _ _ eq_refl (or_introl eq_refl) _) _); [reflexivity |].
  reflexivity.
Defined.

Lemma main_without_download_witness : exists tables w',
  main demo_env orders_csv false orders_world = Ok tables w' /\
  w_fs w' = orders_fs /\ Forall (fun t => ~ In "Download" (fst (snd t))) tables.
Proof.
  eexists. eexists. split; [reflexivity |].
  exact (main_without_download demo_env orders_csv orders_world _ _ eq_refl).
Defined.
